(** * Fleet supervision: worker health monitor and guardian agent

    A shallow embedding of the two services of the repository that carry
    state and decision logic,

    - [src/worker-health-monitor/main.py] (module [HealthMonitor]) and
    - [src/guardian-agent/main.py] (module [Guardian]),

    followed by the properties proved about them.

    Conventions of the embedding.

    - The Redis store is a finite map per key family: a hash written with
      [hset(key, mapping=...)] is a record (every write of a family sets the
      same fields), a Redis list is a Rocq list whose head is index 0.
    - Python floats are IEEE 754 binary64 numbers: Rocq's primitive floats.
      A number kept in Redis as the text [f"{x:.2f}"] is a [decimal2]; it is
      read back with [float(...)].
    - Instants ([datetime.now()], ISO timestamps) are integers, microseconds
      since the epoch.  An operation receives the clock reading as an
      argument; the readings taken inside one operation are identified.
    - What a service obtains from the network (a probe, a fetched body) is an
      argument of the operation that performs the request.  A request that
      raises is a constructor of that argument.
    - Redis itself is assumed to answer: the [except] branches that only a
      failing store can reach are not modelled. *)

From Stdlib Require Import ZArith QArith List Lia Bool.
From Stdlib Require Import Sorting.Sorted Sorting.Permutation.
From Stdlib Require Import Floats.
From stdpp Require Import gmap strings list pretty.
Import ListNotations.

Set Warnings "-inexact-float".
Local Open Scope Z_scope.

(** ** Redis lists *)

Module RedisList.

(** [LPUSH key v]: the new element becomes index 0. *)
Definition lpush {A} (v : A) (l : list A) : list A := v :: l.

(** [LTRIM key start stop] for non-negative indices: keep the elements at
    the indices [start .. stop], both included. *)
Definition ltrim {A} (start stop : nat) (l : list A) : list A :=
  take (S stop - start) (drop start l).

Section Keyed.
Context {A : Type}.

(** A missing key reads as the empty list. *)
Definition lrange_all (key : string) (m : gmap string (list A)) : list A :=
  default [] (m !! key).

Definition lpush_key (key : string) (v : A) (m : gmap string (list A))
  : gmap string (list A) :=
  <[key := lpush v (lrange_all key m)]> m.

(** Redis removes a list that becomes empty. *)
Definition ltrim_key (key : string) (start stop : nat)
    (m : gmap string (list A)) : gmap string (list A) :=
  match m !! key with
  | None => m
  | Some l =>
      match ltrim start stop l with
      | [] => delete key m
      | l' => <[key := l']> m
      end
  end.
End Keyed.

End RedisList.

(** ** Numbers as Python floats and as two-decimal text *)

Module PyFloat.

(** [float(n)] for a Python int [n] below [2^63] in magnitude; exact below
    [2^53].  The integers the two services convert (elapsed microseconds,
    list lengths, hundredths) are far below. *)
Definition float_of_int (z : Z) : float :=
  if z <? 0 then PrimFloat.opp (PrimFloat.of_uint63 (Uint63.of_Z (- z)))
  else PrimFloat.of_uint63 (Uint63.of_Z z).

(** The text produced by [f"{x:.2f}"]: a sign and a number of hundredths
    ([Dec false 9525] is ["95.25"], [Dec true 0] is ["-0.00"]), or one of
    the texts ["inf"], ["-inf"], ["nan"]. *)
Inductive decimal2 : Type :=
| Dec (neg : bool) (hundredths : Z)
| DecInf (neg : bool)
| DecNan.

(** [n / d] rounded to the nearest integer, ties to even ([0 < d]). *)
Definition round_half_even (n d : Z) : Z :=
  let q := n / d in
  let r := n mod d in
  match 2 * r ?= d with
  | Lt => q
  | Gt => q + 1
  | Eq => if Z.even q then q else q + 1
  end.

(** [f"{x:.2f}"]: the exact binary value of [x], rounded to two decimals
    (correctly rounded, ties to even, as CPython's formatting does). *)
Definition format_2f (x : float) : decimal2 :=
  match Prim2SF x with
  | S754_zero s => Dec s 0
  | S754_infinity s => DecInf s
  | S754_nan => DecNan
  | S754_finite s m e =>
      Dec s (if 0 <=? e then Z.pos m * 2 ^ e * 100
             else round_half_even (Z.pos m * 100) (2 ^ (- e)))
  end.

(** [float(text)] for a text written by [format_2f]: the double nearest to
    [hundredths / 100].  The correctly rounded quotient of two exactly
    represented integers is that double, so the definition is exact for
    the texts of fewer than sixteen digits. *)
Definition parse_float (d : decimal2) : float :=
  match d with
  | Dec s k =>
      let v := PrimFloat.div (float_of_int k) (float_of_int 100) in
      if s then PrimFloat.opp v else v
  | DecInf s => if s then neg_infinity else infinity
  | DecNan => nan
  end.

(** The characters of that text. *)
Definition decimal2_text (d : decimal2) : string :=
  match d with
  | Dec s k =>
      (if s then "-" else "") +:+ pretty (k / 100) +:+ "." +:+
      (if k mod 100 <? 10 then "0" else "") +:+ pretty (k mod 100)
  | DecInf s => if s then "-inf" else "inf"
  | DecNan => "nan"
  end.

(** The hundredths of a text that denotes a non-negative finite number. *)
Definition hundredths_of (d : decimal2) : option Z :=
  match d with
  | Dec false k => Some k
  | _ => None
  end.

End PyFloat.

(** ** The worker health monitor *)

Module HealthMonitor.
Import RedisList PyFloat.

Record Worker := { name : string; url : string; category : string }.

Definition WORKERS : list Worker :=
  [ {| name := "hub"; url := "https://jimbo77.com/health"; category := "web" |};
    {| name := "pumo-api";
       url := "https://jimbo-like-pumo-api.stolarnia-ams.workers.dev/health";
       category := "api" |};
    {| name := "zen-browser"; url := "https://zen-bro-wser.org/health";
       category := "web" |};
    {| name := "blog"; url := "https://my-bonzo-ai-blog.pages.dev/health";
       category := "web" |};
    {| name := "luc-de-zen-on"; url := "https://luc-de-zen-on.pages.dev/health";
       category := "web" |};
    {| name := "agents-orchestrator";
       url := "https://orchestrator.jimbo77.com/health";
       category := "orchestration" |} ].

(** The status strings written by [check_worker_health]. *)
Inductive Status := healthy | degraded | down.

Definition Status_eqb (a b : Status) : bool :=
  match a, b with
  | healthy, healthy | degraded, degraded | down, down => true
  | _, _ => false
  end.

(** The hash [worker:status:{name}]. *)
Record WorkerRecord := {
  status : Status;
  response_time_ms : decimal2;
  last_check : Z;
  uptime_percent : decimal2;
  error : string
}.

(** An element of the list [worker:history:{name}]. *)
Record HistoryEntry := {
  h_timestamp : Z;
  h_status : Status;
  h_response_time_ms : float;
  h_status_code : Z
}.

(** What leaves the service: [send_alert] and [restart_worker]. *)
Inductive Event :=
| Alert (worker_name : string) (message : string)
| Restart (worker_name : string).

Record State := {
  statuses : gmap string WorkerRecord;
  histories : gmap string (list HistoryEntry);
  events : list Event
}.

Definition initial : State :=
  {| statuses := ∅; histories := ∅; events := [] |}.

(** One [client.get(worker_url)]: it raises, or it answers with a status
    code between the two clock readings [start_time] and [end_time]. *)
Inductive ProbeOutcome :=
| Raised (err : string)
| Responded (status_code : Z) (start_time end_time : Z).

Record Probe := { outcome : ProbeOutcome; now : Z }.

(** [(end_time - start_time).total_seconds() * 1000] *)
Definition elapsed_ms (start_time end_time : Z) : float :=
  PrimFloat.mul
    (PrimFloat.div (float_of_int (end_time - start_time)) (float_of_int 1000000))
    (float_of_int 1000).

(** "Determine status" *)
Definition classify (status_code : Z) (rt_ms : float) : Status :=
  if (status_code =? 200) && PrimFloat.ltb rt_ms (float_of_int 1000) then healthy
  else if (status_code =? 200) && PrimFloat.ltb rt_ms (float_of_int 3000) then degraded
  else down.

(** "Get previous uptime" *)
Definition prev_uptime (st : State) (worker_name : string) : float :=
  match statuses st !! worker_name with
  | Some prev_data => parse_float (uptime_percent prev_data)
  | None => 100.0%float
  end.

Definition is_up (s : Status) : float :=
  match s with
  | healthy | degraded => 1.0%float
  | down => 0.0%float
  end.

Definition hset (worker_name : string) (r : WorkerRecord) (st : State) : State :=
  {| statuses := <[worker_name := r]> (statuses st);
     histories := histories st;
     events := events st |}.

Definition store_history (worker_name : string) (h : HistoryEntry) (st : State)
  : State :=
  {| statuses := statuses st;
     histories :=
       ltrim_key worker_name 0 99 (lpush_key worker_name h (histories st));
     events := events st |}.

Definition emit (es : list Event) (st : State) : State :=
  {| statuses := statuses st;
     histories := histories st;
     events := events st ++ es |}.

Definition check_worker_health (worker : Worker) (p : Probe) (st : State) : State :=
  let worker_name := name worker in
  match outcome p with
  | Responded status_code start_time end_time =>
      let rt := elapsed_ms start_time end_time in
      let status := classify status_code rt in
      let new_uptime :=
        PrimFloat.add (PrimFloat.mul (prev_uptime st worker_name) 0.95%float)
                      (PrimFloat.mul (is_up status) 5.0%float) in
      let st1 :=
        hset worker_name
          {| status := status;
             response_time_ms := format_2f rt;
             last_check := now p;
             uptime_percent := format_2f new_uptime;
             error := "" |} st in
      let st2 :=
        store_history worker_name
          {| h_timestamp := now p; h_status := status;
             h_response_time_ms := rt; h_status_code := status_code |} st1 in
      if Status_eqb status down
      then emit [ Alert worker_name
                    ("Worker is DOWN (status " +:+ pretty status_code +:+ ")");
                  Restart worker_name ] st2
      else st2
  | Raised e =>
      let new_uptime := PrimFloat.mul (prev_uptime st worker_name) 0.95%float in
      let st1 :=
        hset worker_name
          {| status := down;
             response_time_ms := Dec false 0;   (* the text "0" *)
             last_check := now p;
             uptime_percent := format_2f new_uptime;
             error := e |} st in
      emit [ Alert worker_name ("Worker UNREACHABLE: " +:+ e);
             Restart worker_name ] st1
  end.

(** [perform_health_checks]: one probe per configured worker.  The probes
    run concurrently; each touches only the keys of its own worker, so the
    order in which they are applied shows in [events] only. *)
Definition perform_health_checks (probe : Worker -> Probe) (st : State) : State :=
  fold_left (fun s w => check_worker_health w (probe w) s) WORKERS st.

(** Consecutive probes of one worker. *)
Definition run_checks (worker : Worker) (ps : list Probe) (st : State) : State :=
  fold_left (fun s p => check_worker_health worker p s) ps st.

(** The states the service can be in. *)
Inductive reachable : State -> Prop :=
| reach_initial : reachable initial
| reach_check st worker p :
    reachable st -> reachable (check_worker_health worker p st).

(** *** [GET /metrics] *)

Record HealthMetrics := {
  total_workers : nat;
  m_healthy : nat;
  m_degraded : nat;
  m_down : nat;
  avg_response_time_ms : float;
  m_uptime_percent : float
}.

(** The local variables of the loop of [get_metrics]. *)
Record Tally := {
  t_healthy : nat;
  t_degraded : nat;
  t_down : nat;
  total_response_time : float;
  response_count : nat;
  total_uptime : float
}.

Definition tally0 : Tally :=
  {| t_healthy := 0; t_degraded := 0; t_down := 0;
     total_response_time := 0.0%float; response_count := 0;
     total_uptime := 0.0%float |}.

(** The body of [for worker in WORKERS]. *)
Definition tally_worker (st : State) (t : Tally) (worker : Worker) : Tally :=
  match statuses st !! name worker with
  | None => t
  | Some status_data =>
      let rt := parse_float (response_time_ms status_data) in
      let counted := PrimFloat.ltb 0.0%float rt in
      {| t_healthy :=
           match status status_data with healthy => S (t_healthy t) | _ => t_healthy t end;
         t_degraded :=
           match status status_data with degraded => S (t_degraded t) | _ => t_degraded t end;
         t_down :=
           match status status_data with down => S (t_down t) | _ => t_down t end;
         total_response_time :=
           if counted then PrimFloat.add (total_response_time t) rt
           else total_response_time t;
         response_count :=
           if counted then S (response_count t) else response_count t;
         total_uptime :=
           PrimFloat.add (total_uptime t) (parse_float (uptime_percent status_data)) |}
  end.

Definition get_metrics_of (workers : list Worker) (st : State) : HealthMetrics :=
  let t := fold_left (tally_worker st) workers tally0 in
  let len := length workers in
  {| total_workers := len;
     m_healthy := t_healthy t;
     m_degraded := t_degraded t;
     m_down := t_down t;
     avg_response_time_ms :=
       if (0 <? response_count t)%nat
       then PrimFloat.div (total_response_time t)
                          (float_of_int (Z.of_nat (response_count t)))
       else 0.0%float;
     m_uptime_percent :=
       if (0 <? len)%nat
       then PrimFloat.div (total_uptime t) (float_of_int (Z.of_nat len))
       else 100.0%float |}.

Definition get_metrics (st : State) : HealthMetrics := get_metrics_of WORKERS st.

End HealthMonitor.

(** ** The guardian agent *)

Module Guardian.
Import RedisList PyFloat.

Record Agent := { name : string; url : string; type : string }.

Definition AGENTS : list Agent :=
  [ {| name := "deployment-coordinator";
       url := "http://deployment-coordinator:6001"; type := "orchestration" |};
    {| name := "cost-optimizer";
       url := "http://cost-optimizer:6002"; type := "analytics" |};
    {| name := "worker-health-monitor";
       url := "http://worker-health-monitor:6003"; type := "monitoring" |} ].

(** [POLICIES] *)
Definition max_deployments_per_hour : nat := 10.
Definition max_cost_per_day : float := 10.0%float.
Definition max_failed_health_checks : Z := 5.

(** The values named by the comments of [AgentStatus]. *)
Inductive Status := healthy | suspicious | rogue | stopped.
Inductive ThreatLevel := low | medium | high | critical.

(** The hash [guardian:agent:{name}]. *)
Record AgentRecord := {
  status : Status;
  last_check : Z;
  threat_level : ThreatLevel
}.

Record PolicyViolation := {
  agent : string;
  policy : string;
  severity : string;
  timestamp : Z;
  details : string;
  action_taken : string
}.

(** What [send_alert] is asked to deliver; the text sent is an emoji
    followed by the sentence the constructor stands for. *)
Inductive Alert :=
| SuspiciousAlert (agent_name reason : string)   (* level "warning" *)
| EmergencyStopAlert (agent_name : string).      (* level "critical" *)

Record State := {
  agents : gmap string AgentRecord;
  violations : gmap string (list PolicyViolation);
  alerts : list Alert
}.

Definition initial : State := {| agents := ∅; violations := ∅; alerts := [] |}.

(** The stored status as [get_metrics] and [list_agents] read it. *)
Definition status_of (st : State) (agent_name : string) : option Status :=
  status <$> agents st !! agent_name.

Definition violations_of (st : State) (agent_name : string) : list PolicyViolation :=
  lrange_all agent_name (violations st).

(** *** What the guardian sees of an agent *)

(** One [client.get(...)]: it raises, or it answers with a status code and
    a body; the body is [None] when reading it ([response.json()], the
    lookups in it) raises. *)
Inductive Fetch (A : Type) :=
| Failed (err : string)
| Response (status_code : Z) (body : option A).
Arguments Failed {A} err.
Arguments Response {A} status_code body.

(** The field ["started_at"] of one deployment. *)
Inductive StartedAt :=
| Missing                (* no such key: the default "2020-01-01" is used *)
| Malformed              (* [datetime.fromisoformat] or the comparison raises *)
| Iso (t : Z).

Record Observation := {
  now : Z;
  health : Fetch unit;                (* GET {url}/health *)
  deployments : Fetch (list StartedAt);   (* GET {url}/deployments?limit=100 *)
  costs : Fetch float;                (* GET {url}/costs/daily, "total_cost" *)
  metrics : Fetch Z                   (* GET {url}/metrics, "down" *)
}.

Definition hour : Z := 3600 * 1000000.
Definition date_2020_01_01 : Z := 1577836800 * 1000000.

(** *** Store writes *)

Definition hset (agent_name : string) (r : AgentRecord) (st : State) : State :=
  {| agents := <[agent_name := r]> (agents st);
     violations := violations st;
     alerts := alerts st |}.

Definition send_alert (a : Alert) (st : State) : State :=
  {| agents := agents st; violations := violations st; alerts := alerts st ++ [a] |}.

Definition log_violation (agent policy severity : string) (details action : string)
    (now : Z) (st : State) : State :=
  let violation :=
    {| agent := agent; policy := policy; severity := severity;
       timestamp := now; details := details; action_taken := action |} in
  {| agents := agents st;
     violations := ltrim_key agent 0 99 (lpush_key agent violation (violations st));
     alerts := alerts st |}.

Definition flag_suspicious_behavior (agent_name reason : string) (now : Z)
    (st : State) : State :=
  send_alert (SuspiciousAlert agent_name reason)
    (hset agent_name
       {| status := suspicious; last_check := now; threat_level := high |} st).

(** *** Policy checks *)

Definition started_instant (d : StartedAt) : option Z :=
  match d with
  | Iso t => Some t
  | Missing => Some date_2020_01_01
  | Malformed => None
  end.

(** The comprehension [recent = [d for d in deployments if ... ]]; [None]
    when an element makes it raise. *)
Fixpoint recent_deployments (now : Z) (ds : list StartedAt) : option (list StartedAt) :=
  match ds with
  | [] => Some []
  | d :: ds' =>
      match started_instant d with
      | None => None
      | Some t =>
          match recent_deployments now ds' with
          | None => None
          | Some r => Some (if now - hour <? t then d :: r else r)
          end
      end
  end.

Definition check_deployment_policies (agent_name : string) (obs : Observation)
    (st : State) : State :=
  match deployments obs with
  | Failed _ => st
  | Response status_code body =>
      if status_code =? 200
      then
        match body with
        | None => st
        | Some ds =>
            match recent_deployments (now obs) ds with
            | None => st
            | Some recent =>
                if (max_deployments_per_hour <? length recent)%nat
                then
                  let st1 :=
                    log_violation agent_name "max_deployments_per_hour" "critical"
                      ("Exceeded deployment limit: " +:+ pretty (length recent) +:+
                       " deployments in last hour")
                      "Flagged as suspicious" (now obs) st in
                  flag_suspicious_behavior agent_name
                    ("Deployment rate exceeded: " +:+ pretty (length recent) +:+ "/hour")
                    (now obs) st1
                else st
            end
        end
      else st
  end.

Definition check_cost_policies (agent_name : string) (obs : Observation)
    (st : State) : State :=
  match costs obs with
  | Failed _ => st
  | Response status_code body =>
      if status_code =? 200
      then
        match body with
        | None => st
        | Some total_cost =>
            if PrimFloat.ltb max_cost_per_day total_cost
            then
              log_violation agent_name "max_cost_per_day" "warning"
                ("Daily cost $" +:+ decimal2_text (format_2f total_cost) +:+
                 " exceeds limit $10.0")
                "Alert sent" (now obs) st
            else st
        end
      else st
  end.

Definition check_monitoring_policies (agent_name : string) (obs : Observation)
    (st : State) : State :=
  match metrics obs with
  | Failed _ => st
  | Response status_code body =>
      if status_code =? 200
      then
        match body with
        | None => st
        | Some down_count =>
            if max_failed_health_checks <? down_count
            then
              log_violation agent_name "max_failed_health_checks" "critical"
                (pretty down_count +:+ " workers are down (limit: 5)")
                "Alert sent" (now obs) st
            else st
        end
      else st
  end.

(** *** Supervision *)

Definition check_agent_behavior (a : Agent) (obs : Observation) (st : State) : State :=
  let agent_name := name a in
  match health obs with
  | Failed e => flag_suspicious_behavior agent_name ("Unreachable: " +:+ e) (now obs) st
  | Response status_code _ =>
      if negb (status_code =? 200)
      then
        flag_suspicious_behavior agent_name
          ("Health check failed with status " +:+ pretty status_code) (now obs) st
      else
        (* Agent-specific policy checks *)
        let st1 :=
          if String.eqb (type a) "orchestration"
          then check_deployment_policies agent_name obs st
          else if String.eqb (type a) "analytics"
          then check_cost_policies agent_name obs st
          else if String.eqb (type a) "monitoring"
          then check_monitoring_policies agent_name obs st
          else st in
        (* "Mark as healthy if no violations" *)
        hset agent_name
          {| status := healthy; last_check := now obs; threat_level := low |} st1
  end.

(** One pass over [AGENTS]: the body of the periodic [background_supervision]
    loop and of the manual [POST /monitor/all]. *)
Definition perform_agent_monitoring (observe : Agent -> Observation) (st : State)
  : State :=
  fold_left (fun s a => check_agent_behavior a (observe a) s) AGENTS st.

(** *** [POST /stop/{agent_name}] *)

Inductive HTTPException := HTTPError (status_code : Z) (detail : string).

(** The reply [{"status": "stopped", "agent": agent_name}]. *)
Inductive StopReply := StoppedReply (agent_name : string).

Definition emergency_stop_agent (EMERGENCY_STOP_ENABLED : bool)
    (agent_name : string) (now : Z) (st : State)
  : (HTTPException + StopReply) * State :=
  if negb EMERGENCY_STOP_ENABLED
  then (inl (HTTPError 403 "Emergency stop disabled"), st)
  else
    match find (fun a => String.eqb (name a) agent_name) AGENTS with
    | None => (inl (HTTPError 404 "Agent not found"), st)
    | Some _ =>
        let st1 :=
          hset agent_name
            {| status := stopped; last_check := now; threat_level := critical |} st in
        let st2 :=
          log_violation agent_name "emergency_stop" "critical"
            "Agent manually stopped by Guardian" "Agent process terminated" now st1 in
        (inr (StoppedReply agent_name),
         send_alert (EmergencyStopAlert agent_name) st2)
    end.

(** The states of one process run: requests to stop an agent and checks
    of the registered agents, in any order. *)
Inductive reachable (enabled : bool) : State -> Prop :=
| reach_initial : reachable enabled initial
| reach_stop st agent_name now :
    reachable enabled st ->
    reachable enabled (snd (emergency_stop_agent enabled agent_name now st))
| reach_check st a obs :
    reachable enabled st -> In a AGENTS ->
    reachable enabled (check_agent_behavior a obs st).

End Guardian.

(** ** Reading a range of a Redis list *)

Module RedisRange.

(** [LRANGE key start stop] for non-negative indices: the elements at the
    indices [start .. stop], both included. *)
Definition lrange {A} (start stop : nat) (l : list A) : list A :=
  take (S stop - start) (drop start l).

End RedisRange.

(** ** The query endpoints of the worker health monitor *)

Module HealthMonitorQueries.
Import RedisList RedisRange PyFloat HealthMonitor.

Inductive HTTPException := HTTPError (status_code : Z) (detail : string).

Definition status_text (s : Status) : string :=
  match s with
  | healthy => "healthy"
  | degraded => "degraded"
  | down => "down"
  end.

(** The model [WorkerStatus]; [ws_last_check] is [None] for the text
    ["never"]. *)
Record WorkerStatus := {
  ws_name : string;
  ws_url : string;
  ws_status : string;
  ws_response_time_ms : option float;
  ws_last_check : option Z;
  ws_error : option string;
  ws_uptime_percent : float
}.

(** [GET /workers] *)
Definition list_workers (st : State) : list WorkerStatus :=
  map (fun worker =>
         match statuses st !! name worker with
         | Some status_data =>
             {| ws_name := name worker;
                ws_url := url worker;
                ws_status := status_text (status status_data);
                ws_response_time_ms := Some (parse_float (response_time_ms status_data));
                ws_last_check := Some (last_check status_data);
                ws_error := Some (error status_data);
                ws_uptime_percent := parse_float (uptime_percent status_data) |}
         | None =>
             (* Not yet checked *)
             {| ws_name := name worker;
                ws_url := url worker;
                ws_status := "unknown";
                ws_response_time_ms := None;
                ws_last_check := None;
                ws_error := None;
                ws_uptime_percent := 100.0%float |}
         end)
      WORKERS.

(** [GET /workers/{worker_name}]: the status hash and the last 20 checks. *)
Definition get_worker_status (worker_name : string) (st : State)
  : HTTPException + (WorkerRecord * list HistoryEntry) :=
  match statuses st !! worker_name with
  | None => inl (HTTPError 404 "Worker not found or not yet monitored")
  | Some status_data =>
      inr (status_data, lrange 0 19 (lrange_all worker_name (histories st)))
  end.

End HealthMonitorQueries.

(** ** The query endpoints of the guardian agent *)

Module GuardianQueries.
Import RedisList RedisRange PyFloat Guardian.

Definition status_text (s : Status) : string :=
  match s with
  | healthy => "healthy"
  | suspicious => "suspicious"
  | rogue => "rogue"
  | stopped => "stopped"
  end.

Definition threat_text (t : ThreatLevel) : string :=
  match t with
  | low => "low"
  | medium => "medium"
  | high => "high"
  | critical => "critical"
  end.

(** The model [AgentStatus]; [as_last_check] is [None] for the text
    ["never"]. *)
Record AgentStatus := {
  as_name : string;
  as_url : string;
  as_status : string;
  as_last_check : option Z;
  as_violations : list string;
  as_threat_level : string
}.

(** [GET /agents]: the stored record of every agent, with the policies of
    its last 10 violations. *)
Definition list_agents (st : State) : list AgentStatus :=
  map (fun a =>
         let violations := lrange 0 9 (violations_of st (name a)) in
         match agents st !! name a with
         | Some status_data =>
             {| as_name := name a;
                as_url := url a;
                as_status := status_text (status status_data);
                as_last_check := Some (last_check status_data);
                as_violations := map policy violations;
                as_threat_level := threat_text (threat_level status_data) |}
         | None =>
             {| as_name := name a;
                as_url := url a;
                as_status := "unknown";
                as_last_check := None;
                as_violations := [];
                as_threat_level := "low" |}
         end)
      AGENTS.

(** [sorted(violations, key=lambda x: x.timestamp, reverse=True)].  The
    keys are ISO texts of instants, which compare as the instants do.
    Python's sort is stable, also with [reverse=True]: of two entries with
    the same key the one that came first stays first.  The sorted list is
    determined by that; it is built here by insertion from the right. *)
Fixpoint insert_newest (v : PolicyViolation) (l : list PolicyViolation)
  : list PolicyViolation :=
  match l with
  | [] => [v]
  | w :: l' =>
      if timestamp v <? timestamp w then w :: insert_newest v l' else v :: l
  end.

Definition sorted_newest_first (l : list PolicyViolation) : list PolicyViolation :=
  fold_right insert_newest [] l.

(** [GET /violations?hours=N], read at the instant [now]. *)
Definition list_violations (hours : Z) (now : Z) (st : State) : list PolicyViolation :=
  let cutoff := now - hours * hour in
  sorted_newest_first
    (flat_map
       (fun a => List.filter (fun v => cutoff <=? timestamp v)
                             (violations_of st (name a)))
       AGENTS).

Record GuardianMetrics := {
  total_agents : nat;
  g_healthy : nat;
  g_suspicious : nat;
  g_stopped : nat;
  total_violations_24h : nat;
  critical_alerts_24h : nat
}.

(** The three counters of the loop of [get_metrics]. *)
Record Counters := { n_healthy : nat; n_suspicious : nat; n_stopped : nat }.

(** The body of [for agent in AGENTS]. *)
Definition count_agent (st : State) (c : Counters) (a : Agent) : Counters :=
  match status_of st (name a) with
  | Some healthy =>
      {| n_healthy := S (n_healthy c); n_suspicious := n_suspicious c;
         n_stopped := n_stopped c |}
  | Some suspicious =>
      {| n_healthy := n_healthy c; n_suspicious := S (n_suspicious c);
         n_stopped := n_stopped c |}
  | Some stopped =>
      {| n_healthy := n_healthy c; n_suspicious := n_suspicious c;
         n_stopped := S (n_stopped c) |}
  | _ => c
  end.

(** [GET /metrics], read at the instant [now]. *)
Definition get_metrics (now : Z) (st : State) : GuardianMetrics :=
  let c :=
    fold_left (count_agent st) AGENTS
      {| n_healthy := 0; n_suspicious := 0; n_stopped := 0 |} in
  let violations_24h := list_violations 24 now st in
  {| total_agents := length AGENTS;
     g_healthy := n_healthy c;
     g_suspicious := n_suspicious c;
     g_stopped := n_stopped c;
     total_violations_24h := length violations_24h;
     critical_alerts_24h :=
       length (List.filter (fun v => String.eqb (severity v) "critical")
                           violations_24h) |}.

(** [POST /monitor/all]: one pass, then the reply with the number of
    agents. *)
Definition monitor_all_agents (observe : Agent -> Observation) (st : State)
  : nat * State :=
  (length AGENTS, perform_agent_monitoring observe st).

End GuardianQueries.

(** * Properties of the worker health monitor *)

Module HealthMonitorSpec.
Import RedisList PyFloat HealthMonitor.

(** ** The uptime estimate, one stored value at a time *)

(** The two expressions of [check_worker_health] that compute the new
    uptime: after an answer, and after a request that raised. *)
Definition updated (prev : float) (s : Status) : float :=
  PrimFloat.add (PrimFloat.mul prev 0.95%float) (PrimFloat.mul (is_up s) 5.0%float).

Definition decayed (prev : float) : float := PrimFloat.mul prev 0.95%float.

(** The uptime a probe starts from, as the text in the store; ["100.00"]
    stands for the seed of a worker without a record. *)
Definition stored_uptime (st : State) (worker_name : string) : decimal2 :=
  match statuses st !! worker_name with
  | Some r => uptime_percent r
  | None => Dec false 10000
  end.

(** The same in hundredths; [-1] for a text that is not a non-negative
    finite number. *)
Definition uptime_hundredths (st : State) (worker_name : string) : Z :=
  default (-1) (hundredths_of (stored_uptime st worker_name)).

(** Whether a probe counts as up: it was answered and classified
    [healthy] or [degraded]. *)
Definition counts_up (o : ProbeOutcome) : bool :=
  match o with
  | Raised _ => false
  | Responded status_code start_time end_time =>
      negb (Status_eqb (classify status_code (elapsed_ms start_time end_time)) down)
  end.

(** Everything used below about one stored uptime [k] (in hundredths):
    where the three update expressions send it. *)
Definition uptime_row_ok (k : Z) : bool :=
  let f := parse_float (Dec false k) in
  match format_2f (updated f healthy), format_2f (updated f degraded),
        format_2f (updated f down), format_2f (decayed f) with
  | Dec false a, Dec false a', Dec false b, Dec false c =>
      (a' =? a) && (c =? b) &&
      PrimFloat.leb 0.0%float f && PrimFloat.leb f 100.0%float &&
      (k <=? a) && (a <=? 10000) && (Z.abs (100 * a - (95 * k + 50000)) <=? 50) &&
      (if k <? 9991 then (k <? a) && (a <=? 9991) else a =? k) &&
      (0 <=? b) && (b <=? k) && (Z.abs (100 * b - 95 * k) <=? 50) &&
      (if 10 <? k then (b <? k) && (10 <=? b) else b =? k)
  | _, _, _, _ => false
  end.

Lemma uptime_table :
  forallb uptime_row_ok (map Z.of_nat (seq 0 (Z.to_nat 10001))) = true.
Proof. vm_compute. reflexivity. Qed.

Lemma row_ok k : 0 <= k <= 10000 -> uptime_row_ok k = true.
Proof.
  intros Hk. pose proof uptime_table as T.
  rewrite forallb_forall in T. apply T.
  apply in_map_iff. exists (Z.to_nat k). split; [apply Z2Nat.id; lia|].
  apply in_seq. lia.
Qed.

(** What a row of the table says, as propositions. *)
Record row_facts (k a b : Z) : Prop := {
  rf_up_range : k <= a <= 10000;
  rf_up_exact : Z.abs (100 * a - (95 * k + 50000)) <= 50;
  rf_up_strict : k < 9991 -> k < a <= 9991;
  rf_up_fixed : 9991 <= k -> a = k;
  rf_down_range : 0 <= b <= k;
  rf_down_exact : Z.abs (100 * b - 95 * k) <= 50;
  rf_down_strict : 10 < k -> 10 <= b < k;
  rf_down_fixed : k <= 10 -> b = k;
  rf_float_range :
    PrimFloat.leb 0.0%float (parse_float (Dec false k)) = true /\
    PrimFloat.leb (parse_float (Dec false k)) 100.0%float = true
}.

Lemma row_spec k :
  0 <= k <= 10000 ->
  exists a b,
    (forall s, s <> down ->
       format_2f (updated (parse_float (Dec false k)) s) = Dec false a) /\
    format_2f (updated (parse_float (Dec false k)) down) = Dec false b /\
    format_2f (decayed (parse_float (Dec false k))) = Dec false b /\
    row_facts k a b.
Proof.
  intros Hk. pose proof (row_ok k Hk) as R. unfold uptime_row_ok in R.
  destruct (format_2f (updated _ healthy)) as [[|] a| |] eqn:Eh; try discriminate.
  destruct (format_2f (updated _ degraded)) as [[|] a'| |] eqn:Ed; try discriminate.
  destruct (format_2f (updated _ down)) as [[|] b| |] eqn:Eb; try discriminate.
  destruct (format_2f (decayed _)) as [[|] c| |] eqn:Ec; try discriminate.
  repeat match type of R with
         | (_ && _)%bool = true => apply andb_prop in R; destruct R as [R ?]
         end.
  repeat match goal with
         | H : (_ =? _) = true |- _ => apply Z.eqb_eq in H
         | H : (_ <=? _) = true |- _ => apply Z.leb_le in H
         end.
  subst a' c.
  match goal with
  | H : (if k <? 9991 then _ else _) = true |- _ =>
      assert (Hup : (k < 9991 -> k < a <= 9991) /\ (9991 <= k -> a = k))
        by (destruct (Z.ltb_spec k 9991);
            [ apply andb_prop in H as [X Y]; apply Z.ltb_lt in X;
              apply Z.leb_le in Y; lia
            | apply Z.eqb_eq in H; lia ]);
      clear H
  end.
  match goal with
  | H : (if 10 <? k then _ else _) = true |- _ =>
      assert (Hdn : (10 < k -> 10 <= b < k) /\ (k <= 10 -> b = k))
        by (destruct (Z.ltb_spec 10 k);
            [ apply andb_prop in H as [X Y]; apply Z.ltb_lt in X;
              apply Z.leb_le in Y; lia
            | apply Z.eqb_eq in H; lia ]);
      clear H
  end.
  destruct Hup, Hdn.
  exists a, b. split; [intros [] Hs; [exact Eh | exact Ed | congruence] |].
  split; [reflexivity|]. split; [reflexivity|].
  constructor; auto; lia.
Qed.

(** ** Comparisons with the two latency thresholds *)

Lemma SFltb_below_larger (x : spec_float) (m1 m3 : positive) (e1 e3 : Z) :
  e1 < e3 ->
  SFltb x (S754_finite false m1 e1) = true ->
  SFltb x (S754_finite false m3 e3) = true.
Proof.
  intros He. unfold SFltb, SFcompare.
  destruct x as [s|s| |s m e].
  - destruct s; intros H; try discriminate H; reflexivity.
  - destruct s; intros H; try discriminate H; reflexivity.
  - intros H; discriminate H.
  - destruct s; [reflexivity|].
    destruct (Z.compare_spec e e1) as [E|E|E].
    + intros _. destruct (Z.compare_spec e e3); [lia|reflexivity|lia].
    + intros _. destruct (Z.compare_spec e e3); [lia|reflexivity|lia].
    + intros H; discriminate H.
Qed.

Lemma SFleb_not_ltb (x : spec_float) (m0 : positive) (e0 : Z) :
  SFleb (S754_finite false m0 e0) x = true ->
  SFltb x (S754_finite false m0 e0) = false.
Proof.
  unfold SFltb, SFleb, SFcompare.
  destruct x as [s|s| |s m e].
  - destruct s; intros H; try discriminate H; reflexivity.
  - destruct s; intros H; try discriminate H; reflexivity.
  - reflexivity.
  - destruct s; [intros H; discriminate H|].
    rewrite (Z.compare_antisym e e0).
    destruct (Z.compare_spec e e0) as [E|E|E]; cbn [CompOpp].
    + fold (Pos.compare m0 m). fold (Pos.compare m m0).
      rewrite (Pos.compare_antisym m0 m).
      destruct (Pos.compare m0 m); cbn [CompOpp];
        intros H; try discriminate H; reflexivity.
    + intros H; discriminate H.
    + reflexivity.
Qed.

Lemma ltb_1000_3000 (x : float) :
  PrimFloat.ltb x (float_of_int 1000) = true ->
  PrimFloat.ltb x (float_of_int 3000) = true.
Proof.
  rewrite !ltb_spec.
  change (Prim2SF (float_of_int 1000))
    with (S754_finite false 8796093022208000 (-43)).
  change (Prim2SF (float_of_int 3000))
    with (S754_finite false 6597069766656000 (-41)).
  apply SFltb_below_larger. lia.
Qed.

Lemma leb_3000_not_ltb (x : float) :
  PrimFloat.leb (float_of_int 3000) x = true ->
  PrimFloat.ltb x (float_of_int 3000) = false.
Proof.
  rewrite leb_spec, ltb_spec.
  change (Prim2SF (float_of_int 3000))
    with (S754_finite false 6597069766656000 (-41)).
  apply SFleb_not_ltb.
Qed.

(** ** What one probe writes *)

(** The status a probe ends with. *)
Definition classification (o : ProbeOutcome) : Status :=
  match o with
  | Raised _ => down
  | Responded status_code start_time end_time =>
      classify status_code (elapsed_ms start_time end_time)
  end.

(** The uptime text a probe writes. *)
Definition new_uptime_text (st : State) (worker_name : string) (o : ProbeOutcome)
  : decimal2 :=
  match o with
  | Raised _ => format_2f (decayed (prev_uptime st worker_name))
  | Responded _ _ _ =>
      format_2f (updated (prev_uptime st worker_name) (classification o))
  end.

Lemma check_statuses worker p st :
  exists r,
    statuses (check_worker_health worker p st) = <[name worker := r]> (statuses st) /\
    status r = classification (outcome p) /\
    uptime_percent r = new_uptime_text st (name worker) (outcome p) /\
    last_check r = now p.
Proof.
  unfold check_worker_health.
  destruct (outcome p) as [e|code t0 t1]; simpl.
  - eexists. split; [reflexivity|]. simpl. auto.
  - destruct (Status_eqb _ down); simpl;
      (eexists; split; [reflexivity|]; simpl; auto).
Qed.

Lemma check_lookup_same worker p st :
  exists r,
    statuses (check_worker_health worker p st) !! name worker = Some r /\
    status r = classification (outcome p) /\
    uptime_percent r = new_uptime_text st (name worker) (outcome p).
Proof.
  destruct (check_statuses worker p st) as (r & E & Hs & Hu & _).
  exists r. rewrite E, lookup_insert_eq. auto.
Qed.

Lemma check_lookup_other worker p st n :
  n <> name worker ->
  statuses (check_worker_health worker p st) !! n = statuses st !! n.
Proof.
  intros Hn. destruct (check_statuses worker p st) as (r & E & _).
  rewrite E. apply lookup_insert_ne. congruence.
Qed.

(** C4.  Whatever the store holds, a probe of a worker leaves it with the
    status given by the rule: [down] when the request raised; otherwise
    [healthy] when the code is 200 and the response time is below 1000 ms;
    otherwise [degraded] when the code is 200 and the response time is
    below 3000 ms; otherwise, that is when the code is not 200 or the
    response time is not below 3000 ms (in particular when it is at least
    3000 ms), [down]. *)
Theorem classification_rule (worker : Worker) (p : Probe) (st : State) :
  exists r,
    statuses (check_worker_health worker p st) !! name worker = Some r /\
    match outcome p with
    | Raised _ => status r = down
    | Responded status_code start_time end_time =>
        let rt := elapsed_ms start_time end_time in
        let below_1000 := PrimFloat.ltb rt (float_of_int 1000) in
        let below_3000 := PrimFloat.ltb rt (float_of_int 3000) in
        (status_code = 200 /\ below_1000 = true -> status r = healthy) /\
        (status_code = 200 /\ below_1000 = false /\ below_3000 = true ->
           status r = degraded) /\
        (status_code <> 200 \/ below_3000 = false \/
         PrimFloat.leb (float_of_int 3000) rt = true -> status r = down)
    end.
Proof.
  destruct (check_lookup_same worker p st) as (r & Hr & Hs & _).
  exists r. split; [exact Hr|].
  rewrite Hs. destruct (outcome p) as [e|code t0 t1]; [reflexivity|].
  cbn zeta. unfold classification, classify.
  set (rt := elapsed_ms t0 t1).
  repeat split.
  - intros [-> H1]. rewrite H1. reflexivity.
  - intros (-> & H1 & H3). rewrite H1, H3. reflexivity.
  - intros H.
    assert (H3 : code <> 200 \/ PrimFloat.ltb rt (float_of_int 3000) = false).
    { destruct H as [H|[H|H]]; auto. right. apply leb_3000_not_ltb, H. }
    destruct H3 as [Hc|H3].
    + apply Z.eqb_neq in Hc. rewrite Hc. reflexivity.
    + assert (H1 : PrimFloat.ltb rt (float_of_int 1000) = false).
      { destruct (PrimFloat.ltb rt (float_of_int 1000)) eqn:E; [|reflexivity].
        apply ltb_1000_3000 in E. congruence. }
      rewrite H1, H3, !andb_false_r. reflexivity.
Qed.

(** ** The uptime estimate along one probe *)

Lemma prev_uptime_stored st n : prev_uptime st n = parse_float (stored_uptime st n).
Proof.
  unfold prev_uptime, stored_uptime.
  destruct (statuses st !! n); reflexivity.
Qed.

Lemma stored_uptime_after worker p st :
  stored_uptime (check_worker_health worker p st) (name worker)
  = new_uptime_text st (name worker) (outcome p).
Proof.
  unfold stored_uptime at 1.
  destruct (check_lookup_same worker p st) as (r & -> & _ & ->). reflexivity.
Qed.

Lemma stored_uptime_other worker p st n :
  n <> name worker ->
  stored_uptime (check_worker_health worker p st) n = stored_uptime st n.
Proof.
  intros Hn. unfold stored_uptime. rewrite check_lookup_other by exact Hn.
  reflexivity.
Qed.

Lemma hundredths_stored st n k :
  uptime_hundredths st n = k -> 0 <= k -> stored_uptime st n = Dec false k.
Proof.
  unfold uptime_hundredths.
  destruct (stored_uptime st n) as [[|] h| |]; cbn; intros; subst; try lia.
  reflexivity.
Qed.

Lemma stored_hundredths st n k :
  stored_uptime st n = Dec false k -> uptime_hundredths st n = k.
Proof. unfold uptime_hundredths. intros ->. reflexivity. Qed.

(** One probe counted as up, from [k] hundredths to [k']: the estimate does
    not go down, stays within a half hundredth of [0.95 k + 5], and moves
    as long as it is below 99.91. *)
Definition up_step (k k' : Z) : Prop :=
  k <= k' <= 10000 /\
  Z.abs (100 * k' - (95 * k + 50000)) <= 50 /\
  (k < 9991 -> k < k' <= 9991) /\
  (9991 <= k -> k' = k).

(** One probe counted as down: the estimate does not go up, stays within a
    half hundredth of [0.95 k], and moves as long as it is above 0.10. *)
Definition down_step (k k' : Z) : Prop :=
  0 <= k' <= k /\
  Z.abs (100 * k' - 95 * k) <= 50 /\
  (10 < k -> 10 <= k' < k) /\
  (k <= 10 -> k' = k).

Lemma uptime_step worker p st k :
  stored_uptime st (name worker) = Dec false k -> 0 <= k <= 10000 ->
  exists k',
    stored_uptime (check_worker_health worker p st) (name worker) = Dec false k' /\
    (if counts_up (outcome p) then up_step k k' else down_step k k').
Proof.
  intros Hs Hk. rewrite stored_uptime_after. unfold new_uptime_text.
  rewrite prev_uptime_stored, Hs.
  destruct (row_spec k Hk) as (a & b & Hup & Hdn & Hexc & F).
  destruct F.
  destruct (outcome p) as [e|code t0 t1].
  - exists b. split; [exact Hexc|]. cbn [counts_up]. unfold down_step. auto.
  - cbn [counts_up classification].
    destruct (classify code (elapsed_ms t0 t1)) eqn:E; cbn [Status_eqb negb].
    + exists a. split; [apply Hup; discriminate|]. unfold up_step. auto.
    + exists a. split; [apply Hup; discriminate|]. unfold up_step. auto.
    + exists b. split; [exact Hdn|]. unfold down_step. auto.
Qed.

(** ** Example probes *)

Definition hub : Worker :=
  {| name := "hub"; url := "https://jimbo77.com/health"; category := "web" |}.

(** An answer with the given status code after [ms] milliseconds. *)
Definition answered (status_code ms : Z) : Probe :=
  {| outcome := Responded status_code 0 (ms * 1000); now := ms * 1000 |}.

Definition timed_out : Probe :=
  {| outcome := Raised "timed out"; now := 30000000 |}.

(** C5 (as stated).  After the probes healthy, timeout, healthy the store
    holds 95.25 for the worker; one more healthy probe stores 95.49, which
    is not 95.25 * 0.95 + 5.0 = 95.4875, neither as an exact number nor as
    the float the expression evaluates to. *)
Lemma uptime_update_not_exact :
  let st := run_checks hub [answered 200 250; timed_out; answered 200 500] initial in
  stored_uptime st "hub" = Dec false 9525 /\
  stored_uptime (check_worker_health hub (answered 200 500) st) "hub" = Dec false 9549 /\
  Qeq_bool (9549 # 100) ((9525 # 100) * 0.95 + 5) = false /\
  PrimFloat.eqb (parse_float (Dec false 9549))
                (updated (parse_float (Dec false 9525)) healthy) = false.
Proof. vm_compute. repeat split; reflexivity. Qed.

(** C5 (amended).  A probe replaces the stored uptime [k] (the seed 100.00
    for a worker never checked) by the two-decimal text of
    [prev * 0.95 + 5.0] when it is classified healthy or degraded, and of
    [prev * 0.95] otherwise, the request that raised included; the stored
    value is within 0.005 of the exact [0.95 k + 5], respectively [0.95 k].
    From the seed, the probes healthy, timeout, healthy store 100.00, 95.00
    and 95.25. *)
Theorem uptime_update_rounded :
  (forall (worker : Worker) (p : Probe) (st : State) (k : Z),
      stored_uptime st (name worker) = Dec false k -> 0 <= k <= 10000 ->
      exists k',
        stored_uptime (check_worker_health worker p st) (name worker) = Dec false k' /\
        Dec false k' =
          format_2f
            (match outcome p with
             | Raised _ => decayed (parse_float (Dec false k))
             | Responded _ _ _ =>
                 updated (parse_float (Dec false k)) (classification (outcome p))
             end) /\
        Z.abs (100 * k' - (95 * k + if counts_up (outcome p) then 50000 else 0)) <= 50)
  /\
  (forall (worker : Worker) (p1 p2 p3 : Probe) (st : State),
      statuses st !! name worker = None ->
      classification (outcome p1) = healthy ->
      (exists e, outcome p2 = Raised e) ->
      classification (outcome p3) = healthy ->
      let st1 := check_worker_health worker p1 st in
      let st2 := check_worker_health worker p2 st1 in
      let st3 := check_worker_health worker p3 st2 in
      stored_uptime st (name worker) = Dec false 10000 /\
      stored_uptime st1 (name worker) = Dec false 10000 /\
      stored_uptime st2 (name worker) = Dec false 9500 /\
      stored_uptime st3 (name worker) = Dec false 9525).
Proof.
  assert (General : forall worker p st k,
      stored_uptime st (name worker) = Dec false k -> 0 <= k <= 10000 ->
      exists k',
        stored_uptime (check_worker_health worker p st) (name worker) = Dec false k' /\
        Dec false k' =
          format_2f
            (match outcome p with
             | Raised _ => decayed (parse_float (Dec false k))
             | Responded _ _ _ =>
                 updated (parse_float (Dec false k)) (classification (outcome p))
             end) /\
        Z.abs (100 * k' - (95 * k + if counts_up (outcome p) then 50000 else 0)) <= 50).
  { intros worker p st k Hs Hk.
    destruct (uptime_step worker p st k Hs Hk) as (k' & Hk' & Hstep).
    exists k'. split; [exact Hk'|]. split.
    - rewrite <- Hk', stored_uptime_after. unfold new_uptime_text.
      rewrite prev_uptime_stored, Hs. destruct (outcome p); reflexivity.
    - destruct (counts_up (outcome p)).
      + destruct Hstep as (_ & H & _). exact H.
      + destruct Hstep as (_ & H & _). rewrite Z.add_0_r. exact H. }
  split; [exact General|].
  intros worker p1 p2 p3 st Hnone H1 [e H2] H3 st1 st2 st3.
  assert (U : forall o, classification o = healthy -> counts_up o = true).
  { intros [e'|c t0 t1]; cbn [classification counts_up]; [discriminate|].
    intros ->. reflexivity. }
  assert (S0 : stored_uptime st (name worker) = Dec false 10000).
  { unfold stored_uptime. rewrite Hnone. reflexivity. }
  destruct (General worker p1 st 10000 S0 ltac:(lia)) as (k1 & S1 & _ & B1).
  rewrite (U _ H1) in B1.
  assert (k1 = 10000) by lia. subst k1.
  destruct (General worker p2 st1 10000 S1 ltac:(lia)) as (k2 & S2 & _ & B2).
  rewrite H2 in B2. cbn [counts_up] in B2.
  assert (k2 = 9500) by lia. subst k2.
  destruct (General worker p3 st2 9500 S2 ltac:(lia)) as (k3 & S3 & _ & B3).
  rewrite (U _ H3) in B3.
  assert (k3 = 9525) by lia. subst k3.
  auto.
Qed.

(** The general part of C5, at the first probe of the example worker. *)
Lemma uptime_update_rounded_witness :
  stored_uptime initial (name hub) = Dec false 10000 /\
  0 <= 10000 <= 10000 /\
  exists k',
    stored_uptime (check_worker_health hub timed_out initial) (name hub) = Dec false k' /\
    Z.abs (100 * k' - (95 * 10000 + 0)) <= 50.
Proof.
  split; [reflexivity|]. split; [lia|].
  destruct (proj1 uptime_update_rounded hub timed_out initial 10000)
    as (k' & Hk' & _ & B); [reflexivity | lia |].
  exists k'. split; [exact Hk' | exact B].
Defined.

(** ** The uptime estimate in every reachable state *)

Definition uptime_in_range (st : State) : Prop :=
  forall n r, statuses st !! n = Some r ->
    exists k, uptime_percent r = Dec false k /\ 0 <= k <= 10000.

Lemma stored_in_range st n :
  uptime_in_range st -> exists k, stored_uptime st n = Dec false k /\ 0 <= k <= 10000.
Proof.
  intros H. unfold stored_uptime.
  destruct (statuses st !! n) as [r|] eqn:E.
  - exact (H n r E).
  - exists 10000. split; [reflexivity | lia].
Qed.

Lemma step_in_range k k' (up : bool) :
  0 <= k <= 10000 -> (if up then up_step k k' else down_step k k') ->
  0 <= k' <= 10000.
Proof.
  intros Hk. destruct up; intros (H & _); lia.
Qed.

Lemma check_preserves_range worker p st :
  uptime_in_range st -> uptime_in_range (check_worker_health worker p st).
Proof.
  intros H n r Hl.
  destruct (decide (n = name worker)) as [->|Hn].
  - destruct (stored_in_range st (name worker) H) as (k & Hs & Hk).
    destruct (uptime_step worker p st k Hs Hk) as (k' & Hs' & Hstep).
    unfold stored_uptime in Hs'. rewrite Hl in Hs'.
    exists k'. split; [exact Hs'|]. eapply step_in_range; eassumption.
  - rewrite check_lookup_other in Hl by exact Hn. exact (H n r Hl).
Qed.

Lemma reachable_in_range st : reachable st -> uptime_in_range st.
Proof.
  induction 1 as [|st worker p _ IH].
  - intros n r Hl. cbn in Hl. rewrite lookup_empty in Hl. discriminate.
  - apply check_preserves_range, IH.
Qed.

(** C6.  In every reachable state the uptime stored for a worker is a
    two-decimal number between 0.00 and 100.00, and the float read back is
    between 0.0 and 100.0. *)
Theorem uptime_within_bounds (st : State) (n : string) (r : WorkerRecord) :
  reachable st ->
  statuses st !! n = Some r ->
  exists k,
    uptime_percent r = Dec false k /\ 0 <= k <= 10000 /\
    PrimFloat.leb 0.0%float (parse_float (uptime_percent r)) = true /\
    PrimFloat.leb (parse_float (uptime_percent r)) 100.0%float = true.
Proof.
  intros Hreach Hl.
  destruct (reachable_in_range st Hreach n r Hl) as (k & Hu & Hk).
  exists k. split; [exact Hu|]. split; [exact Hk|].
  rewrite Hu.
  destruct (row_spec k Hk) as (a & b & _ & _ & _ & F).
  exact (rf_float_range _ _ _ F).
Qed.

(** C6 at the state reached by the probes healthy, timeout, healthy. *)
Lemma uptime_within_bounds_witness :
  let st := run_checks hub [answered 200 250; timed_out; answered 200 500] initial in
  reachable st /\
  exists r k,
    statuses st !! "hub" = Some r /\
    uptime_percent r = Dec false k /\ 0 <= k <= 10000.
Proof.
  intros st.
  assert (R : reachable st) by (repeat apply reach_check; apply reach_initial).
  split; [exact R|].
  destruct (statuses st !! "hub") as [r|] eqn:E; [|vm_compute in E; discriminate E].
  destruct (uptime_within_bounds st "hub" r R E) as (k & Hu & Hk & _).
  exists r, k. auto.
Defined.

(** ** Runs of probes of one worker *)

(** The stored uptime, in hundredths, after the first [i] probes of [ps]. *)
Definition uptime_after (worker : Worker) (ps : list Probe) (st : State) (i : nat) : Z :=
  uptime_hundredths (run_checks worker (take i ps) st) (name worker).

Lemma run_take_S worker ps st i p :
  ps !! i = Some p ->
  run_checks worker (take (S i) ps) st
  = check_worker_health worker p (run_checks worker (take i ps) st).
Proof.
  intros H. unfold run_checks.
  rewrite (take_S_r _ _ _ H), fold_left_app. reflexivity.
Qed.

Lemma run_take_past worker ps st i :
  ps !! i = None ->
  run_checks worker (take (S i) ps) st = run_checks worker (take i ps) st.
Proof.
  intros H. apply lookup_ge_None in H.
  rewrite !take_ge by lia. reflexivity.
Qed.

Lemma uptime_after_step worker ps st i :
  0 <= uptime_after worker ps st i <= 10000 ->
  match ps !! i with
  | Some p =>
      if counts_up (outcome p)
      then up_step (uptime_after worker ps st i) (uptime_after worker ps st (S i))
      else down_step (uptime_after worker ps st i) (uptime_after worker ps st (S i))
  | None => uptime_after worker ps st (S i) = uptime_after worker ps st i
  end.
Proof.
  intros Hk. unfold uptime_after in *.
  destruct (ps !! i) as [p|] eqn:E.
  - rewrite (run_take_S _ _ _ _ _ E).
    set (sti := run_checks worker (take i ps) st) in *.
    pose proof (hundredths_stored sti (name worker) _ eq_refl (proj1 Hk)) as Hs.
    destruct (uptime_step worker p sti _ Hs Hk) as (k' & Hs' & Hstep).
    rewrite (stored_hundredths _ _ _ Hs'). exact Hstep.
  - rewrite (run_take_past _ _ _ _ E). reflexivity.
Qed.

Lemma uptime_after_range worker ps st :
  0 <= uptime_hundredths st (name worker) <= 10000 ->
  forall i, 0 <= uptime_after worker ps st i <= 10000.
Proof.
  intros H0. induction i as [|i IH].
  - unfold uptime_after. rewrite take_0. exact H0.
  - pose proof (uptime_after_step worker ps st i IH) as Hstep.
    destruct (ps !! i) as [p|].
    + eapply step_in_range; eassumption.
    + rewrite Hstep. exact IH.
Qed.

(** C7 (as stated).  From the seed, a run of probes that time out never
    brings the stored uptime below 0.10, whatever its length: the sequence
    does not tend to 0.  From 95.00, a run of healthy probes never brings
    it above 99.91: the sequence does not tend to 100. *)
Lemma runs_do_not_converge :
  (forall n, 10 <= uptime_after hub (replicate n timed_out) initial n) /\
  (forall n, uptime_after hub (replicate n (answered 200 250))
               (check_worker_health hub timed_out initial) n <= 9991).
Proof.
  split.
  - intros n.
    assert (G : forall i, 10 <= uptime_after hub (replicate n timed_out) initial i <= 10000).
    { induction i as [|i IH].
      - unfold uptime_after. rewrite take_0. vm_compute. split; discriminate.
      - assert (Hr : 0 <= uptime_after hub (replicate n timed_out) initial i <= 10000) by lia.
        pose proof (uptime_after_step hub (replicate n timed_out) initial i Hr) as Hstep.
        destruct (replicate n timed_out !! i) as [p|] eqn:E.
        + apply lookup_replicate_1 in E as [-> _]. cbn [counts_up outcome timed_out] in Hstep.
          destruct Hstep as (? & _ & ? & ?). lia.
        + lia. }
    apply G.
  - intros n.
    set (st1 := check_worker_health hub timed_out initial).
    assert (G : forall i, 0 <= uptime_after hub (replicate n (answered 200 250)) st1 i <= 9991).
    { induction i as [|i IH].
      - unfold uptime_after. rewrite take_0. vm_compute. split; discriminate.
      - assert (Hr : 0 <= uptime_after hub (replicate n (answered 200 250)) st1 i <= 10000) by lia.
        pose proof (uptime_after_step hub (replicate n (answered 200 250)) st1 i Hr) as Hstep.
        destruct (replicate n (answered 200 250) !! i) as [p|] eqn:E.
        + apply lookup_replicate_1 in E as [-> _].
          change (counts_up (outcome (answered 200 250))) with true in Hstep.
          destruct Hstep as (? & _ & ? & ?). lia.
        + lia. }
    apply G.
Qed.

(** C7 (amended).  Start from a stored uptime in [0, 100] and write [u i]
    for the stored uptime after the first [i] probes of a run.  If none of
    the probes counts as up, [u] never increases, decreases at every probe
    while it is above 0.10, never crosses 0.10 from above, and stays put
    from 0.10 down.  If all of them count as up, [u] never decreases,
    increases at every probe while it is below 99.91, never crosses 99.91
    from below, and stays put from 99.91 up. *)
Theorem uptime_runs_monotone (worker : Worker) (ps : list Probe) (st : State) :
  0 <= uptime_hundredths st (name worker) <= 10000 ->
  let u := uptime_after worker ps st in
  (Forall (fun p => counts_up (outcome p) = false) ps ->
   forall i,
     0 <= u (S i) <= u i /\
     ((i < length ps)%nat -> 10 < u i -> u (S i) < u i) /\
     (10 <= u i -> 10 <= u (S i)) /\
     (u i <= 10 -> u (S i) = u i))
  /\
  (Forall (fun p => counts_up (outcome p) = true) ps ->
   forall i,
     u i <= u (S i) <= 10000 /\
     ((i < length ps)%nat -> u i < 9991 -> u i < u (S i)) /\
     (u i <= 9991 -> u (S i) <= 9991) /\
     (9991 <= u i -> u (S i) = u i)).
Proof.
  intros H0 u. split; intros Hall i.
  - pose proof (uptime_after_range worker ps st H0 i) as Hr.
    pose proof (uptime_after_step worker ps st i Hr) as Hstep.
    fold u in Hr, Hstep.
    destruct (ps !! i) as [p|] eqn:E.
    + rewrite (proj1 (Forall_lookup _ _) Hall i p E) in Hstep.
      destruct Hstep as (? & _ & ? & ?). repeat split; lia.
    + apply lookup_ge_None in E. repeat split; lia.
  - pose proof (uptime_after_range worker ps st H0 i) as Hr.
    pose proof (uptime_after_step worker ps st i Hr) as Hstep.
    fold u in Hr, Hstep.
    destruct (ps !! i) as [p|] eqn:E.
    + rewrite (proj1 (Forall_lookup _ _) Hall i p E) in Hstep.
      destruct Hstep as (? & _ & ? & ?). repeat split; lia.
    + apply lookup_ge_None in E. repeat split; lia.
Qed.

(** C7 at two timeouts in a row from the seed: 100.00, 95.00, 90.25. *)
Lemma uptime_runs_monotone_witness :
  0 <= uptime_hundredths initial (name hub) <= 10000 /\
  Forall (fun p => counts_up (outcome p) = false) [timed_out; timed_out] /\
  uptime_after hub [timed_out; timed_out] initial 2
  < uptime_after hub [timed_out; timed_out] initial 1.
Proof.
  assert (H0 : 0 <= uptime_hundredths initial (name hub) <= 10000)
    by (vm_compute; split; discriminate).
  assert (Hall : Forall (fun p => counts_up (outcome p) = false) [timed_out; timed_out])
    by (repeat constructor).
  split; [exact H0|]. split; [exact Hall|].
  destruct (proj1 (uptime_runs_monotone hub [timed_out; timed_out] initial H0) Hall 1%nat)
    as (_ & Hlt & _).
  apply Hlt; [cbn; lia | vm_compute; reflexivity].
Defined.

(** ** The average uptime of [GET /metrics] *)

(** The uptimes read from the store, in the order of the workers: one for
    each worker that has a status record, none for the others. *)
Definition checked_uptimes (workers : list Worker) (st : State) : list float :=
  omap (fun w => (fun r => parse_float (uptime_percent r)) <$> statuses st !! name w)
       workers.

Lemma tally_total_uptime st workers t :
  total_uptime (fold_left (tally_worker st) workers t)
  = fold_left PrimFloat.add (checked_uptimes workers st) (total_uptime t).
Proof.
  revert t. induction workers as [|w ws IH]; intros t; [reflexivity|].
  cbn [fold_left]. rewrite IH. unfold checked_uptimes. cbn [omap list_omap].
  unfold tally_worker.
  destruct (statuses st !! name w) as [r|]; reflexivity.
Qed.

Lemma unchecked_no_uptimes workers st :
  (forall w, In w workers -> statuses st !! name w = None) ->
  checked_uptimes workers st = [].
Proof.
  induction workers as [|w ws IH]; intros H; [reflexivity|].
  unfold checked_uptimes. cbn [omap list_omap].
  rewrite (H w (or_introl eq_refl)). cbn [fmap option_fmap option_map].
  apply IH. intros w' Hw'. apply H. right. exact Hw'.
Qed.

(** [0.0 / len] for the lengths up to 1000. *)
Definition zero_average_ok (n : nat) : bool :=
  PrimFloat.Leibniz.eqb
    (PrimFloat.div 0.0%float (float_of_int (Z.of_nat n))) 0.0%float.

Lemma zero_average_table : forallb zero_average_ok (seq 1 (Z.to_nat 1000)) = true.
Proof. vm_compute. reflexivity. Qed.

Lemma zero_average n :
  (0 < n <= 1000)%nat ->
  PrimFloat.div 0.0%float (float_of_int (Z.of_nat n)) = 0.0%float.
Proof.
  intros Hn. pose proof zero_average_table as T.
  rewrite forallb_forall in T.
  apply FloatAxioms.Leibniz.eqb_spec. apply (T n). apply in_seq. lia.
Qed.

(** C10.  The average uptime reported by [GET /metrics] is the float sum of
    the uptimes of the workers that have a status record, divided by the
    number of all configured workers.  A worker never checked adds nothing
    to the sum, although its uptime reads as the seed 100.0 elsewhere: when
    no configured worker has been checked the reported average is 0.0. *)
Theorem metrics_uptime_average (workers : list Worker) (st : State) :
  (0 < length workers)%nat ->
  m_uptime_percent (get_metrics_of workers st)
  = PrimFloat.div (fold_left PrimFloat.add (checked_uptimes workers st) 0.0%float)
                  (float_of_int (Z.of_nat (length workers)))
  /\
  ((length workers <= 1000)%nat ->
   (forall w, In w workers -> statuses st !! name w = None) ->
   m_uptime_percent (get_metrics_of workers st) = 0.0%float /\
   forall w, In w workers -> prev_uptime st (name w) = 100.0%float).
Proof.
  intros Hlen.
  assert (E : m_uptime_percent (get_metrics_of workers st)
              = PrimFloat.div
                  (fold_left PrimFloat.add (checked_uptimes workers st) 0.0%float)
                  (float_of_int (Z.of_nat (length workers)))).
  { unfold get_metrics_of. cbn [m_uptime_percent].
    destruct (Nat.ltb_spec 0 (length workers)) as [_|]; [|lia].
    rewrite tally_total_uptime. reflexivity. }
  split; [exact E|].
  intros Hbound Hnone. split.
  - rewrite E, (unchecked_no_uptimes workers st Hnone). cbn [fold_left].
    apply zero_average. lia.
  - intros w Hw. unfold prev_uptime. rewrite (Hnone w Hw). reflexivity.
Qed.

(** C10 at the configured workers, none of them checked yet. *)
Lemma metrics_uptime_average_witness :
  (0 < length WORKERS)%nat /\
  m_uptime_percent (get_metrics initial) = 0.0%float.
Proof.
  assert (Hlen : (0 < length WORKERS)%nat) by (cbn; lia).
  split; [exact Hlen|].
  destruct (metrics_uptime_average WORKERS initial Hlen) as (_ & H).
  apply H.
  - cbn. lia.
  - intros w _. apply lookup_empty.
Defined.

End HealthMonitorSpec.

(** * Properties of the bounded Redis lists *)

Module RedisListSpec.
Import RedisList.

Section Keyed.
Context {A : Type}.
Implicit Types (v : A) (l : list A) (m : gmap string (list A)).

Lemma ltrim_lpush v l : ltrim 0 99 (lpush v l) = v :: take 99 l.
Proof. reflexivity. Qed.

Lemma push_trim_key key v m :
  ltrim_key key 0 99 (lpush_key key v m) = <[key := v :: take 99 (lrange_all key m)]> m.
Proof.
  unfold ltrim_key, lpush_key. rewrite lookup_insert_eq, ltrim_lpush.
  apply insert_insert_eq.
Qed.

Lemma lrange_push_trim key v m :
  lrange_all key (ltrim_key key 0 99 (lpush_key key v m))
  = v :: take 99 (lrange_all key m).
Proof.
  rewrite push_trim_key. unfold lrange_all at 1.
  rewrite lookup_insert_eq. reflexivity.
Qed.

Lemma lrange_push_trim_other key key' v m :
  key <> key' ->
  lrange_all key' (ltrim_key key 0 99 (lpush_key key v m)) = lrange_all key' m.
Proof.
  intros Hne. rewrite push_trim_key. unfold lrange_all.
  rewrite lookup_insert_ne by exact Hne. reflexivity.
Qed.

(** What pushing [v] on [old] and trimming to 100 entries leaves: [v]
    first, then the entries of [old] in their order, as many as fit; the
    entries dropped are the last, that is the oldest, of [old]. *)
Record pushed_and_trimmed v (old new : list A) : Prop := {
  pt_head : new = v :: take 99 old;
  pt_bound : (length new <= 100)%nat;
  pt_order : forall i x, (i < 99)%nat -> old !! i = Some x -> new !! S i = Some x;
  pt_room : (length old < 100)%nat -> new = v :: old;
  pt_evict : (100 <= length old)%nat -> new ++ drop 99 old = v :: old;
  pt_evict_one : length old = 100%nat ->
                 exists oldest, last old = Some oldest /\ new ++ [oldest] = v :: old
}.

Lemma push_trim_facts v old : pushed_and_trimmed v old (v :: take 99 old).
Proof.
  constructor.
  - reflexivity.
  - cbn [length]. rewrite length_take. lia.
  - intros i x Hi Hx. change ((v :: take 99 old) !! S i) with (take 99 old !! i).
    rewrite lookup_take_lt by exact Hi. exact Hx.
  - intros Hlt. rewrite take_ge by lia. reflexivity.
  - intros Hge. cbn [app]. rewrite take_drop. reflexivity.
  - intros Hlen.
    destruct (drop 99 old) as [|oldest [|y rest]] eqn:E.
    + apply (f_equal length) in E. rewrite length_drop in E. cbn in E. lia.
    + exists oldest. split.
      * rewrite <- (take_drop 99 old), E. apply last_snoc.
      * cbn [app]. rewrite <- E, take_drop. reflexivity.
    + apply (f_equal length) in E. rewrite length_drop in E. cbn in E. lia.
Qed.

End Keyed.

End RedisListSpec.

(** * Properties of the guardian agent *)

Module GuardianSpec.
Import RedisList PyFloat Guardian RedisListSpec.

(** ** What the writes change *)

Definition suspicious_record (now : Z) : AgentRecord :=
  {| status := suspicious; last_check := now; threat_level := high |}.

Definition healthy_record (now : Z) : AgentRecord :=
  {| status := healthy; last_check := now; threat_level := low |}.

Definition stopped_record (now : Z) : AgentRecord :=
  {| status := stopped; last_check := now; threat_level := critical |}.

(** The liveness probe answered 200. *)
Definition health_ok (obs : Observation) : bool :=
  match health obs with
  | Failed _ => false
  | Response status_code _ => status_code =? 200
  end.

(** The record a check of an agent ends with. *)
Definition checked_record (obs : Observation) : AgentRecord :=
  if health_ok obs then healthy_record (now obs) else suspicious_record (now obs).

Lemma log_violation_lists a pol sev d act t st :
  violations_of (log_violation a pol sev d act t st) a
  = {| agent := a; policy := pol; severity := sev; timestamp := t;
       details := d; action_taken := act |} :: take 99 (violations_of st a).
Proof. unfold violations_of, log_violation. cbn [violations]. apply lrange_push_trim. Qed.

Lemma log_violation_lists_other a pol sev d act t st n :
  a <> n ->
  violations_of (log_violation a pol sev d act t st) n = violations_of st n.
Proof.
  intros Hne. unfold violations_of, log_violation. cbn [violations].
  apply lrange_push_trim_other, Hne.
Qed.

(** A policy check leaves the agents' records alone, or flags its agent. *)
Definition flags_or_keeps (n : string) (t : Z) (st st' : State) : Prop :=
  agents st' = agents st \/ agents st' = <[n := suspicious_record t]> (agents st).

Lemma deployment_check_agents n obs st :
  flags_or_keeps n (now obs) st (check_deployment_policies n obs st).
Proof.
  unfold check_deployment_policies, flags_or_keeps.
  destruct (deployments obs) as [e|code [ds|]]; auto.
  - destruct (code =? 200); auto.
    destruct (recent_deployments (now obs) ds) as [recent|]; auto.
    destruct (max_deployments_per_hour <? length recent)%nat; auto.
  - destruct (code =? 200); auto.
Qed.

Lemma cost_check_agents n obs st :
  agents (check_cost_policies n obs st) = agents st.
Proof.
  unfold check_cost_policies.
  destruct (costs obs) as [e|code [c|]]; auto; destruct (code =? 200); auto.
  destruct (PrimFloat.ltb max_cost_per_day c); reflexivity.
Qed.

Lemma monitoring_check_agents n obs st :
  agents (check_monitoring_policies n obs st) = agents st.
Proof.
  unfold check_monitoring_policies.
  destruct (metrics obs) as [e|code [c|]]; auto; destruct (code =? 200); auto.
  destruct (max_failed_health_checks <? c); reflexivity.
Qed.

(** Whatever the store held for the agent, a check replaces it. *)
Lemma check_agents a obs st :
  agents (check_agent_behavior a obs st) = <[name a := checked_record obs]> (agents st).
Proof.
  unfold check_agent_behavior, checked_record, health_ok.
  destruct (health obs) as [e|code body]; [reflexivity|].
  destruct (code =? 200); cbn [negb]; [|reflexivity].
  cbn [hset agents].
  destruct (String.eqb (type a) "orchestration").
  { destruct (deployment_check_agents (name a) obs st) as [->| ->];
      [reflexivity | apply insert_insert_eq]. }
  destruct (String.eqb (type a) "analytics").
  { rewrite cost_check_agents. reflexivity. }
  destruct (String.eqb (type a) "monitoring").
  { rewrite monitoring_check_agents. reflexivity. }
  reflexivity.
Qed.

Lemma check_status_same a obs st :
  status_of (check_agent_behavior a obs st) (name a)
  = Some (if health_ok obs then healthy else suspicious).
Proof.
  unfold status_of. rewrite check_agents, lookup_insert_eq.
  unfold checked_record. destruct (health_ok obs); reflexivity.
Qed.

Lemma check_status_other a obs st n :
  n <> name a -> status_of (check_agent_behavior a obs st) n = status_of st n.
Proof.
  intros Hn. unfold status_of. rewrite check_agents, lookup_insert_ne by congruence.
  reflexivity.
Qed.

(** ** A pass over the registered agents *)

Lemma agent_names_distinct : List.NoDup (map name AGENTS).
Proof.
  repeat constructor; cbn; intuition discriminate.
Qed.

Lemma pass_status_other (observe : Agent -> Observation) l st n :
  ~ In n (map name l) ->
  status_of (fold_left (fun s a => check_agent_behavior a (observe a) s) l st) n
  = status_of st n.
Proof.
  revert st. induction l as [|b l IH]; intros st Hn; [reflexivity|].
  cbn [fold_left]. rewrite IH.
  - apply check_status_other. intros ->. apply Hn. left. reflexivity.
  - intros Hin. apply Hn. right. exact Hin.
Qed.

Lemma pass_status (observe : Agent -> Observation) l st a :
  List.NoDup (map name l) -> In a l ->
  status_of (fold_left (fun s a => check_agent_behavior a (observe a) s) l st) (name a)
  = Some (if health_ok (observe a) then healthy else suspicious).
Proof.
  revert st. induction l as [|b l IH]; intros st Hnd Hin; [destruct Hin|].
  cbn [map] in Hnd. inversion Hnd as [|x xs Hnotin Hnd']; subst.
  cbn [fold_left]. destruct Hin as [->|Hin].
  - rewrite pass_status_other by exact Hnotin. apply check_status_same.
  - apply IH; assumption.
Qed.

(** ** The stop request *)

Definition registered (agent_name : string) : Prop :=
  exists a, In a AGENTS /\ name a = agent_name.

Lemma find_registered agent_name :
  registered agent_name ->
  exists a, find (fun a => String.eqb (name a) agent_name) AGENTS = Some a.
Proof.
  intros (a & Hin & Hname).
  destruct (find _ AGENTS) as [b|] eqn:E; [eauto|].
  pose proof (find_none _ _ E a Hin) as Hf. cbn beta in Hf.
  rewrite Hname, String.eqb_refl in Hf. discriminate.
Qed.

Lemma find_unregistered agent_name :
  ~ registered agent_name ->
  find (fun a => String.eqb (name a) agent_name) AGENTS = None.
Proof.
  intros Hn. destruct (find _ AGENTS) as [b|] eqn:E; [|reflexivity].
  apply find_some in E as [Hin Hb]. apply String.eqb_eq in Hb.
  exfalso. apply Hn. exists b. auto.
Qed.

Lemma stop_accepted agent_name t st :
  registered agent_name ->
  emergency_stop_agent true agent_name t st
  = (inr (StoppedReply agent_name),
     send_alert (EmergencyStopAlert agent_name)
       (log_violation agent_name "emergency_stop" "critical"
          "Agent manually stopped by Guardian" "Agent process terminated" t
          (hset agent_name (stopped_record t) st))).
Proof.
  intros Hr. unfold emergency_stop_agent. cbn [negb].
  destruct (find_registered agent_name Hr) as [a ->]. reflexivity.
Qed.

Lemma stop_agents enabled agent_name t st :
  let st' := snd (emergency_stop_agent enabled agent_name t st) in
  agents st' = agents st \/ agents st' = <[agent_name := stopped_record t]> (agents st).
Proof.
  unfold emergency_stop_agent.
  destruct enabled; cbn [negb]; [|left; reflexivity].
  destruct (find _ AGENTS); [right|left]; reflexivity.
Qed.

(** ** Example observations *)

Definition deployment_coordinator : Agent :=
  {| name := "deployment-coordinator";
     url := "http://deployment-coordinator:6001"; type := "orchestration" |}.

Definition cost_optimizer : Agent :=
  {| name := "cost-optimizer"; url := "http://cost-optimizer:6002";
     type := "analytics" |}.

(** The agent answers 200 on every endpoint and reports nothing. *)
Definition quiet (t : Z) : Observation :=
  {| now := t;
     health := Response 200 (Some tt);
     deployments := Response 200 (Some []);
     costs := Response 200 (Some 0.0%float);
     metrics := Response 200 (Some 0) |}.

(** The agent does not answer. *)
Definition unreachable (t : Z) : Observation :=
  {| now := t;
     health := Failed "connection refused";
     deployments := Failed "connection refused";
     costs := Failed "connection refused";
     metrics := Failed "connection refused" |}.

(** At [t] the agent answers 200 and lists eleven deployments started one
    minute apart, the latest one minute before [t]. *)
Definition eleven_deployments (t : Z) : list StartedAt :=
  map (fun i => Iso (t - Z.of_nat i * 60000000)) (seq 1 11).

Definition burst (t : Z) : Observation :=
  {| now := t;
     health := Response 200 (Some tt);
     deployments := Response 200 (Some (eleven_deployments t));
     costs := Response 200 (Some 0.0%float);
     metrics := Response 200 (Some 0) |}.

(** ** C1: the status [stopped] *)

(** C1 (as stated).  The cost optimizer is stopped by the operator; the
    next monitoring pass finds every agent answering and stores [healthy]
    over [stopped]. *)
Lemma stopped_is_overwritten :
  let st0 := snd (emergency_stop_agent true "cost-optimizer" 1000000 initial) in
  let st1 := perform_agent_monitoring (fun _ => quiet 61000000) st0 in
  status_of st0 "cost-optimizer" = Some stopped /\
  status_of st1 "cost-optimizer" = Some healthy.
Proof. vm_compute. split; reflexivity. Qed.

(** C1 (amended).  The status [stopped] is written by the stop operation
    only, which also logs an [emergency_stop] violation: a check of an agent
    never stores [stopped], and leaves the status of the other agents as it
    was.  The status is not kept by monitoring: after a monitoring pass,
    periodic or manual, every registered agent has the status [healthy] or
    [suspicious], whatever the store held before, [stopped] included; it is
    [suspicious] whenever the liveness probe of the agent failed. *)
Theorem stopped_not_terminal :
  (forall (agent_name : string) (t : Z) (st : State),
      registered agent_name ->
      let st' := snd (emergency_stop_agent true agent_name t st) in
      status_of st' agent_name = Some stopped /\
      exists v, head (violations_of st' agent_name) = Some v /\
                policy v = "emergency_stop" /\ severity v = "critical")
  /\
  (forall (a : Agent) (obs : Observation) (st : State) (n : string),
      status_of (check_agent_behavior a obs st) n = Some stopped ->
      n <> name a /\ status_of st n = Some stopped)
  /\
  (forall (observe : Agent -> Observation) (st : State) (a : Agent),
      In a AGENTS ->
      exists s,
        status_of (perform_agent_monitoring observe st) (name a) = Some s /\
        (s = healthy \/ s = suspicious) /\
        (health_ok (observe a) = false -> s = suspicious)).
Proof.
  split; [|split].
  - intros agent_name t st Hr st'. subst st'.
    rewrite (stop_accepted agent_name t st Hr). cbn [snd]. split.
    + unfold status_of, send_alert, log_violation, hset. cbn [agents].
      rewrite lookup_insert_eq. reflexivity.
    + eexists. split.
      * change (violations_of (send_alert ?x ?s) ?n) with (violations_of s n).
        rewrite log_violation_lists. reflexivity.
      * split; reflexivity.
  - intros a obs st n H.
    destruct (decide (n = name a)) as [->|Hn].
    + rewrite check_status_same in H. destruct (health_ok obs); discriminate.
    + rewrite check_status_other in H by exact Hn. auto.
  - intros observe st a Hin. unfold perform_agent_monitoring.
    rewrite (pass_status observe AGENTS st a agent_names_distinct Hin).
    eexists. split; [reflexivity|].
    destruct (health_ok (observe a)); split; auto; discriminate.
Qed.

(** C1 at a stopped agent that does not answer during the next pass. *)
Lemma stopped_not_terminal_witness :
  let st0 := snd (emergency_stop_agent true "cost-optimizer" 1000000 initial) in
  In cost_optimizer AGENTS /\
  status_of (perform_agent_monitoring (fun _ => unreachable 61000000) st0)
            "cost-optimizer" = Some suspicious.
Proof.
  intros st0.
  assert (Hin : In cost_optimizer AGENTS) by (right; left; reflexivity).
  split; [exact Hin|].
  destruct (proj2 (proj2 stopped_not_terminal) (fun _ => unreachable 61000000) st0
              cost_optimizer Hin) as (s & Hs & _ & Hfail).
  rewrite <- (Hfail eq_refl). exact Hs.
Defined.

(** ** C2: threat level and status *)

(** C2 (as stated).  A registered agent that does not answer is stored as
    [suspicious] with the threat level [high], not [critical]. *)
Lemma suspicious_is_high :
  let st := check_agent_behavior deployment_coordinator (unreachable 1000000) initial in
  reachable true st /\
  agents st !! "deployment-coordinator" = Some (suspicious_record 1000000) /\
  threat_level (suspicious_record 1000000) = high.
Proof.
  intros st. split; [|split].
  - apply reach_check; [apply reach_initial | left; reflexivity].
  - vm_compute. reflexivity.
  - reflexivity.
Qed.

(** The three pairs of status and threat level that are ever written. *)
Definition record_consistent (r : AgentRecord) : Prop :=
  (status r = healthy /\ threat_level r = low) \/
  (status r = suspicious /\ threat_level r = high) \/
  (status r = stopped /\ threat_level r = critical).

Lemma insert_consistent (m : gmap string AgentRecord) n r :
  record_consistent r ->
  (forall k x, m !! k = Some x -> record_consistent x) ->
  forall k x, <[n := r]> m !! k = Some x -> record_consistent x.
Proof.
  intros Hr Hm k x. destruct (decide (n = k)) as [->|Hne].
  - rewrite lookup_insert_eq. intros [= <-]. exact Hr.
  - rewrite lookup_insert_ne by exact Hne. apply Hm.
Qed.

Lemma reachable_consistent enabled st :
  reachable enabled st ->
  forall n r, agents st !! n = Some r -> record_consistent r.
Proof.
  induction 1 as [|st agent_name t _ IH|st a obs _ IH Hin].
  - intros n r H. cbn in H. rewrite lookup_empty in H. discriminate.
  - destruct (stop_agents enabled agent_name t st) as [E|E]; cbn zeta in E; rewrite E.
    + exact IH.
    + apply insert_consistent; [|exact IH].
      right; right. split; reflexivity.
  - rewrite check_agents. apply insert_consistent; [|exact IH].
    unfold checked_record. destruct (health_ok obs).
    + left. split; reflexivity.
    + right; left. split; reflexivity.
Qed.

(** C2 (amended).  In every reachable state the threat level of an agent is
    [critical] if and only if its status is [stopped]; the status
    [suspicious] always comes with the threat level [high], and [healthy]
    with [low]. *)
Theorem critical_iff_stopped (enabled : bool) (st : State) (n : string) (r : AgentRecord) :
  reachable enabled st ->
  agents st !! n = Some r ->
  (threat_level r = critical <-> status r = stopped) /\
  (status r = suspicious -> threat_level r = high) /\
  (status r = healthy -> threat_level r = low) /\
  (status r = healthy \/ status r = suspicious \/ status r = stopped).
Proof.
  intros Hreach Hl.
  destruct (reachable_consistent enabled st Hreach n r Hl)
    as [[Hs Ht]|[[Hs Ht]|[Hs Ht]]]; rewrite Hs, Ht;
    repeat split; auto; discriminate.
Qed.

(** C2 at an agent stopped by the operator. *)
Lemma critical_iff_stopped_witness :
  let st := snd (emergency_stop_agent true "cost-optimizer" 1000000
                   (check_agent_behavior deployment_coordinator (unreachable 0) initial)) in
  reachable true st /\
  agents st !! "cost-optimizer" = Some (stopped_record 1000000) /\
  (threat_level (stopped_record 1000000) = critical
   <-> status (stopped_record 1000000) = stopped).
Proof.
  intros st.
  assert (R : reachable true st).
  { apply reach_stop, reach_check; [apply reach_initial | left; reflexivity]. }
  assert (E : agents st !! "cost-optimizer" = Some (stopped_record 1000000))
    by (vm_compute; reflexivity).
  split; [exact R|]. split; [exact E|].
  exact (proj1 (critical_iff_stopped true st "cost-optimizer" _ R E)).
Defined.

(** ** C3: a burst of deployments *)

(** C3.  An orchestration agent answers its liveness probe with 200 and
    lists more than ten deployments started within the last hour.  The check
    logs exactly one violation, [max_deployments_per_hour] with severity
    [critical], and alerts that the agent is suspicious; it then marks the
    agent healthy all the same, so the stored status at the end of the pass
    is [healthy], not [suspicious]. *)
Theorem deployment_burst_ends_healthy
    (a : Agent) (obs : Observation) (st : State)
    (body : option unit) (ds recent : list StartedAt) :
  type a = "orchestration" ->
  health obs = Response 200 body ->
  deployments obs = Response 200 (Some ds) ->
  recent_deployments (now obs) ds = Some recent ->
  (10 < length recent)%nat ->
  let st' := check_agent_behavior a obs st in
  violations_of st' (name a)
  = {| agent := name a;
       policy := "max_deployments_per_hour";
       severity := "critical";
       timestamp := now obs;
       details := "Exceeded deployment limit: " +:+ pretty (length recent) +:+
                  " deployments in last hour";
       action_taken := "Flagged as suspicious" |}
    :: take 99 (violations_of st (name a)) /\
  alerts st'
  = alerts st ++
    [SuspiciousAlert (name a)
       ("Deployment rate exceeded: " +:+ pretty (length recent) +:+ "/hour")] /\
  agents st' !! name a = Some (healthy_record (now obs)) /\
  status_of st' (name a) = Some healthy.
Proof.
  intros Htype Hhealth Hdep Hrecent Hmany st'.
  assert (Hst' : st' =
    hset (name a) (healthy_record (now obs))
      (flag_suspicious_behavior (name a)
         ("Deployment rate exceeded: " +:+ pretty (length recent) +:+ "/hour") (now obs)
         (log_violation (name a) "max_deployments_per_hour" "critical"
            ("Exceeded deployment limit: " +:+ pretty (length recent) +:+
             " deployments in last hour")
            "Flagged as suspicious" (now obs) st))).
  { subst st'. unfold check_agent_behavior.
    rewrite Hhealth. change (negb (200 =? 200)) with false. cbn iota.
    rewrite Htype. change (String.eqb "orchestration" "orchestration") with true.
    cbn iota. unfold check_deployment_policies.
    rewrite Hdep. change (200 =? 200) with true. cbn iota.
    rewrite Hrecent.
    destruct (Nat.ltb_spec max_deployments_per_hour (length recent)) as [_|Hle];
      [reflexivity|].
    unfold max_deployments_per_hour in Hle. lia. }
  rewrite Hst'. split; [|split; [|split]].
  - change (violations_of (hset ?n ?r (flag_suspicious_behavior ?n' ?x ?t ?s)) ?k)
      with (violations_of s k).
    apply log_violation_lists.
  - reflexivity.
  - cbn [hset agents]. apply lookup_insert_eq.
  - unfold status_of. cbn [hset agents]. rewrite lookup_insert_eq. reflexivity.
Qed.

(** C3 at eleven deployments within the last eleven minutes. *)
Lemma deployment_burst_ends_healthy_witness :
  let st' := check_agent_behavior deployment_coordinator (burst 3600000000000) initial in
  recent_deployments 3600000000000 (eleven_deployments 3600000000000)
  = Some (eleven_deployments 3600000000000) /\
  length (eleven_deployments 3600000000000) = 11%nat /\
  map policy (violations_of st' "deployment-coordinator") = ["max_deployments_per_hour"] /\
  map severity (violations_of st' "deployment-coordinator") = ["critical"] /\
  status_of st' "deployment-coordinator" = Some healthy.
Proof.
  intros st'.
  assert (Hrecent : recent_deployments (now (burst 3600000000000))
                      (eleven_deployments 3600000000000)
                    = Some (eleven_deployments 3600000000000))
    by (vm_compute; reflexivity).
  assert (Hmany : (10 < length (eleven_deployments 3600000000000))%nat)
    by (vm_compute; lia).
  destruct (deployment_burst_ends_healthy deployment_coordinator
              (burst 3600000000000) initial (Some tt)
              (eleven_deployments 3600000000000) (eleven_deployments 3600000000000)
              eq_refl eq_refl eq_refl Hrecent Hmany)
    as (Hv & _ & _ & Hs).
  change (name deployment_coordinator) with "deployment-coordinator" in Hv, Hs.
  split; [exact Hrecent|]. split; [reflexivity|].
  subst st'. rewrite Hv. repeat split; reflexivity || exact Hs.
Defined.

(** ** C9: rejected stop requests *)

(** C9.  A stop request is rejected with 403 when the emergency stop is
    disabled, whatever the name, and with 404 when it is enabled and the
    name is not that of a registered agent.  The state after a rejected
    request is the state before it. *)
Theorem stop_rejected (enabled : bool) (agent_name : string) (t : Z) (st : State) :
  enabled = false \/ ~ registered agent_name ->
  exists code detail,
    emergency_stop_agent enabled agent_name t st = (inl (HTTPError code detail), st) /\
    (enabled = false -> code = 403) /\
    (enabled = true -> code = 404).
Proof.
  intros H. unfold emergency_stop_agent. destruct enabled; cbn [negb].
  - destruct H as [H|H]; [discriminate|].
    rewrite (find_unregistered agent_name H).
    exists 404, "Agent not found". repeat split; auto; discriminate.
  - exists 403, "Emergency stop disabled". repeat split; auto; discriminate.
Qed.

(** C9 at an unknown name, and at a known name with the stop disabled. *)
Lemma stop_rejected_witness :
  let st := check_agent_behavior cost_optimizer (quiet 0) initial in
  emergency_stop_agent true "ghost-agent" 1000000 st
  = (inl (HTTPError 404 "Agent not found"), st) /\
  emergency_stop_agent false "cost-optimizer" 1000000 st
  = (inl (HTTPError 403 "Emergency stop disabled"), st).
Proof.
  intros st.
  assert (Hghost : ~ registered "ghost-agent").
  { intros (a & Hin & Hname). cbn in Hin.
    destruct Hin as [<-|[<-|[<-|[]]]]; discriminate Hname. }
  split.
  - destruct (stop_rejected true "ghost-agent" 1000000 st (or_intror Hghost))
      as (code & detail & E & _ & Hc).
    rewrite E. rewrite (Hc eq_refl) in E |- *.
    unfold emergency_stop_agent in E. cbn [negb] in E.
    rewrite (find_unregistered _ Hghost) in E. exact (eq_sym E).
  - destruct (stop_rejected false "cost-optimizer" 1000000 st (or_introl eq_refl))
      as (code & detail & E & Hc & _).
    rewrite E. unfold emergency_stop_agent in E. cbn [negb] in E.
    exact (eq_sym E).
Defined.

End GuardianSpec.

(** * Bounded sequences *)

Module SequencesSpec.
Import RedisList RedisListSpec.

(** C8.  An entry appended to the history of a worker or to the violations
    of an agent becomes the first element; the earlier entries follow in
    their order; the sequence has at most 100 entries; and when the
    sequence was full, the entry left out is its last one, the oldest. *)
Theorem bounded_newest_first :
  (forall (worker : HealthMonitor.Worker) (status_code start_time end_time t : Z)
          (st : HealthMonitor.State),
      let p := {| HealthMonitor.outcome :=
                    HealthMonitor.Responded status_code start_time end_time;
                  HealthMonitor.now := t |} in
      let rt := HealthMonitor.elapsed_ms start_time end_time in
      pushed_and_trimmed
        {| HealthMonitor.h_timestamp := t;
           HealthMonitor.h_status := HealthMonitor.classify status_code rt;
           HealthMonitor.h_response_time_ms := rt;
           HealthMonitor.h_status_code := status_code |}
        (lrange_all (HealthMonitor.name worker) (HealthMonitor.histories st))
        (lrange_all (HealthMonitor.name worker)
           (HealthMonitor.histories (HealthMonitor.check_worker_health worker p st))))
  /\
  (forall (agent policy severity details action : string) (t : Z) (st : Guardian.State),
      pushed_and_trimmed
        {| Guardian.agent := agent; Guardian.policy := policy;
           Guardian.severity := severity; Guardian.timestamp := t;
           Guardian.details := details; Guardian.action_taken := action |}
        (Guardian.violations_of st agent)
        (Guardian.violations_of
           (Guardian.log_violation agent policy severity details action t st) agent)).
Proof.
  split.
  - intros worker status_code start_time end_time t st p rt.
    assert (E : HealthMonitor.histories (HealthMonitor.check_worker_health worker p st)
                = ltrim_key (HealthMonitor.name worker) 0 99
                    (lpush_key (HealthMonitor.name worker)
                       {| HealthMonitor.h_timestamp := t;
                          HealthMonitor.h_status := HealthMonitor.classify status_code rt;
                          HealthMonitor.h_response_time_ms := rt;
                          HealthMonitor.h_status_code := status_code |}
                       (HealthMonitor.histories st))).
    { unfold HealthMonitor.check_worker_health. subst p.
      cbn [HealthMonitor.outcome HealthMonitor.now]. fold rt.
      destruct (HealthMonitor.Status_eqb _ HealthMonitor.down); reflexivity. }
    rewrite E, lrange_push_trim. apply push_trim_facts.
  - intros agent policy severity details action t st.
    rewrite GuardianSpec.log_violation_lists. apply push_trim_facts.
Qed.

End SequencesSpec.

(** * Further properties of the worker health monitor *)

Module HealthMonitorExtra.
Import RedisList RedisRange PyFloat HealthMonitor HealthMonitorQueries.
Import RedisListSpec HealthMonitorSpec.

(** ** One worker's keys *)

(** What the store holds for one worker: its status hash and its history. *)
Definition view (st : State) (n : string)
  : option WorkerRecord * option (list HistoryEntry) :=
  (statuses st !! n, histories st !! n).

Lemma check_histories worker p st :
  histories (check_worker_health worker p st)
  = match outcome p with
    | Raised _ => histories st
    | Responded status_code start_time end_time =>
        <[name worker :=
            {| h_timestamp := now p;
               h_status := classify status_code (elapsed_ms start_time end_time);
               h_response_time_ms := elapsed_ms start_time end_time;
               h_status_code := status_code |}
            :: take 99 (lrange_all (name worker) (histories st))]> (histories st)
    end.
Proof.
  unfold check_worker_health.
  destruct (outcome p) as [e|code t0 t1]; [reflexivity|].
  destruct (Status_eqb _ down); cbn [histories emit store_history hset];
    apply push_trim_key.
Qed.

(** The status hash a probe writes, given the uptime it starts from. *)
Definition written_record (p : Probe) (prev : float) : WorkerRecord :=
  match outcome p with
  | Raised e =>
      {| status := down;
         response_time_ms := Dec false 0;
         last_check := now p;
         uptime_percent := format_2f (decayed prev);
         error := e |}
  | Responded status_code start_time end_time =>
      {| status := classify status_code (elapsed_ms start_time end_time);
         response_time_ms := format_2f (elapsed_ms start_time end_time);
         last_check := now p;
         uptime_percent :=
           format_2f (updated prev (classify status_code (elapsed_ms start_time end_time)));
         error := "" |}
  end.

Lemma check_record worker p st :
  statuses (check_worker_health worker p st)
  = <[name worker := written_record p (prev_uptime st (name worker))]> (statuses st).
Proof.
  unfold check_worker_health, written_record.
  destruct (outcome p) as [e|code t0 t1]; [reflexivity|].
  destruct (Status_eqb _ down); reflexivity.
Qed.

Lemma view_check_other worker p st n :
  n <> name worker -> view (check_worker_health worker p st) n = view st n.
Proof.
  intros Hn. unfold view. rewrite check_lookup_other by exact Hn.
  rewrite check_histories.
  destruct (outcome p); [reflexivity|].
  rewrite lookup_insert_ne by congruence. reflexivity.
Qed.

Lemma view_check_local worker p st1 st2 :
  view st1 (name worker) = view st2 (name worker) ->
  view (check_worker_health worker p st1) (name worker)
  = view (check_worker_health worker p st2) (name worker).
Proof.
  unfold view. intros [= Hs Hh].
  rewrite !check_record, !check_histories, !lookup_insert_eq.
  unfold prev_uptime, lrange_all. rewrite Hs, Hh.
  destruct (outcome p); [rewrite Hh|rewrite !lookup_insert_eq]; reflexivity.
Qed.

(** ** A whole cycle *)

Lemma worker_names_distinct : List.NoDup (map name WORKERS).
Proof. repeat constructor; cbn; intuition discriminate. Qed.

Lemma cycle_view_other (probe : Worker -> Probe) l st n :
  ~ In n (map name l) ->
  view (fold_left (fun s w => check_worker_health w (probe w) s) l st) n = view st n.
Proof.
  revert st. induction l as [|b l IH]; intros st Hn; [reflexivity|].
  cbn [fold_left]. rewrite IH.
  - apply view_check_other. intros ->. apply Hn. left. reflexivity.
  - intros Hin. apply Hn. right. exact Hin.
Qed.

Lemma cycle_view (probe : Worker -> Probe) l st w :
  List.NoDup (map name l) -> In w l ->
  view (fold_left (fun s w => check_worker_health w (probe w) s) l st) (name w)
  = view (check_worker_health w (probe w) st) (name w).
Proof.
  revert st. induction l as [|b l IH]; intros st Hnd Hin; [destruct Hin|].
  cbn [map] in Hnd. inversion Hnd as [|x xs Hnotin Hnd']; subst.
  cbn [fold_left]. destruct Hin as [->|Hin].
  - apply cycle_view_other. exact Hnotin.
  - rewrite (IH _ Hnd' Hin). apply view_check_local.
    apply view_check_other. intros E. apply Hnotin. rewrite <- E.
    apply in_map. exact Hin.
Qed.

Lemma cycle_record (probe : Worker -> Probe) st w :
  In w WORKERS ->
  statuses (perform_health_checks probe st) !! name w
  = Some (written_record (probe w) (prev_uptime st (name w))).
Proof.
  intros Hin. unfold perform_health_checks.
  etransitivity;
    [exact (f_equal fst (cycle_view probe WORKERS st w worker_names_distinct Hin))|].
  cbn [fst view]. rewrite check_record. apply lookup_insert_eq.
Qed.

(** X1.  In a cycle over the configured workers, the status hash and the
    history of each worker end as the probe of that worker alone would have
    left them: the probes of the other workers, whatever their outcome, do
    not show.  The keys of a name that is not configured are not touched. *)
Theorem cycle_probes_independent (probe : Worker -> Probe) (st : State) :
  (forall w, In w WORKERS ->
     statuses (perform_health_checks probe st) !! name w
     = statuses (check_worker_health w (probe w) st) !! name w /\
     histories (perform_health_checks probe st) !! name w
     = histories (check_worker_health w (probe w) st) !! name w) /\
  (forall n, ~ In n (map name WORKERS) ->
     statuses (perform_health_checks probe st) !! n = statuses st !! n /\
     histories (perform_health_checks probe st) !! n = histories st !! n).
Proof.
  split.
  - intros w Hin. unfold perform_health_checks. split.
    + exact (f_equal fst (cycle_view probe WORKERS st w worker_names_distinct Hin)).
    + exact (f_equal snd (cycle_view probe WORKERS st w worker_names_distinct Hin)).
  - intros n Hn. unfold perform_health_checks. split.
    + exact (f_equal fst (cycle_view_other probe WORKERS st n Hn)).
    + exact (f_equal snd (cycle_view_other probe WORKERS st n Hn)).
Qed.

(** ** What a probe that raised leaves *)

(** X2.  A probe that raised stores the status [down] with the response
    time 0 and the text of the exception, issues an alert and a restart,
    and appends nothing to the history: the checks listed by
    [GET /workers/{name}] are those listed before the probe. *)
Theorem unreachable_probe_not_in_history (worker : Worker) (e : string) (t : Z) (st : State) :
  let st' := check_worker_health worker {| outcome := Raised e; now := t |} st in
  histories st' = histories st /\
  events st' = events st ++ [Alert (name worker) ("Worker UNREACHABLE: " +:+ e);
                            Restart (name worker)] /\
  exists r,
    get_worker_status (name worker) st'
    = inr (r, lrange 0 19 (lrange_all (name worker) (histories st))) /\
    status r = down /\ response_time_ms r = Dec false 0 /\ error r = e.
Proof.
  intros st'. subst st'. split; [reflexivity|]. split; [reflexivity|].
  unfold get_worker_status. rewrite check_record, lookup_insert_eq.
  eexists. split; [reflexivity|]. repeat split.
Qed.

(** X3.  An alert and a restart are issued exactly by the probes that end
    [down]; a probe that ends [healthy] or [degraded] issues nothing. *)
Theorem alert_and_restart_iff_down (worker : Worker) (p : Probe) (st : State) :
  exists message,
    events (check_worker_health worker p st)
    = events st ++
      match classification (outcome p) with
      | down => [Alert (name worker) message; Restart (name worker)]
      | _ => []
      end.
Proof.
  unfold check_worker_health, classification.
  destruct (outcome p) as [e|code t0 t1].
  - eexists. reflexivity.
  - destruct (classify code (elapsed_ms t0 t1)); cbn [Status_eqb].
    + exists "". cbn [events store_history hset]. symmetry. apply app_nil_r.
    + exists "". cbn [events store_history hset]. symmetry. apply app_nil_r.
    + eexists. reflexivity.
Qed.

(** ** [GET /workers/{name}] *)

(** X4.  [GET /workers/{name}] answers 404 exactly for the names without a
    status hash, a configured worker never probed included.  After a probe
    of a worker it answers for that worker with the status of the probe
    and at most 20 checks, which are the first 20 of the history; after a
    probe that was answered the first of them is that probe. *)
Theorem worker_status_found_iff_checked :
  (forall (n : string) (st : State),
      get_worker_status n st
      = inl (HTTPError 404 "Worker not found or not yet monitored")
      <-> statuses st !! n = None) /\
  (forall (worker : Worker) (p : Probe) (st : State),
      exists r h,
        get_worker_status (name worker) (check_worker_health worker p st) = inr (r, h) /\
        status r = classification (outcome p) /\
        (length h <= 20)%nat /\
        h = take 20 (lrange_all (name worker)
                       (histories (check_worker_health worker p st))) /\
        match outcome p with
        | Raised _ => True
        | Responded status_code _ _ =>
            exists entry, head h = Some entry /\
                          h_timestamp entry = now p /\
                          h_status_code entry = status_code /\
                          h_status entry = status r
        end).
Proof.
  split.
  - intros n st. unfold get_worker_status.
    destruct (statuses st !! n); split; intros H; try discriminate; reflexivity.
  - intros worker p st. unfold get_worker_status.
    rewrite check_record, lookup_insert_eq. do 2 eexists.
    split; [reflexivity|].
    split; [unfold written_record, classification; destruct (outcome p); reflexivity|].
    split; [unfold lrange; rewrite length_take; lia|].
    split; [reflexivity|].
    rewrite check_histories. unfold written_record.
    destruct (outcome p) as [e|code t0 t1]; [exact I|].
    unfold lrange_all at 1. rewrite lookup_insert_eq.
    eexists. split; [reflexivity|]. repeat split.
Qed.

(** ** [GET /workers] *)

(** X5.  [GET /workers] lists the configured workers, each once and in
    their order.  The uptime it reports for a worker is the uptime the next
    probe of that worker starts from (100.0 for a worker never probed), and
    the status is ["unknown"] exactly for the workers without a status
    hash. *)
Theorem list_workers_reports_estimator_input (st : State) :
  map ws_name (list_workers st) = map name WORKERS /\
  Forall (fun entry =>
            ws_uptime_percent entry = prev_uptime st (ws_name entry) /\
            (ws_status entry = "unknown" <-> statuses st !! ws_name entry = None))
         (list_workers st).
Proof.
  unfold list_workers. split.
  - rewrite map_map. apply map_ext. intros w.
    destruct (statuses st !! name w); reflexivity.
  - apply Forall_map. apply Forall_forall. intros w _.
    unfold prev_uptime.
    destruct (statuses st !! name w) as [r|] eqn:E; cbn; rewrite E.
    + split; [reflexivity|]. split; [|discriminate].
      destruct (status r); discriminate.
    + split; [reflexivity|]. split; reflexivity.
Qed.

(** ** The counters of [GET /metrics] *)

(** The workers with a status hash, and those among them with a status. *)
Definition checked (st : State) (workers : list Worker) : list Worker :=
  List.filter (fun w => bool_decide (is_Some (statuses st !! name w))) workers.

Definition status_is (st : State) (s : Status) (w : Worker) : bool :=
  match statuses st !! name w with
  | Some r => Status_eqb (status r) s
  | None => false
  end.

Lemma tally_counts st workers t :
  let t' := fold_left (tally_worker st) workers t in
  t_healthy t' = (t_healthy t + length (List.filter (status_is st healthy) workers))%nat /\
  t_degraded t' = (t_degraded t + length (List.filter (status_is st degraded) workers))%nat /\
  t_down t' = (t_down t + length (List.filter (status_is st down) workers))%nat.
Proof.
  revert t. induction workers as [|w ws IH]; intros t; cbn zeta.
  - cbn. lia.
  - cbn [fold_left List.filter]. destruct (IH (tally_worker st t w)) as (H1 & H2 & H3).
    rewrite H1, H2, H3. unfold tally_worker, status_is.
    destruct (statuses st !! name w) as [r|]; [|cbn [length]; lia].
    destruct (status r); cbn [t_healthy t_degraded t_down Status_eqb length]; lia.
Qed.

Lemma status_partition st workers :
  (length (List.filter (status_is st healthy) workers)
   + length (List.filter (status_is st degraded) workers)
   + length (List.filter (status_is st down) workers))%nat
  = length (checked st workers).
Proof.
  induction workers as [|w ws IH]; [reflexivity|].
  unfold checked, status_is in *. cbn [List.filter].
  destruct (statuses st !! name w) as [r|].
  - rewrite bool_decide_eq_true_2 by eauto.
    destruct (status r); cbn [Status_eqb length]; lia.
  - rewrite bool_decide_eq_false_2 by (intros [? ?]; discriminate). exact IH.
Qed.

(** X6.  The three counters of [GET /metrics] add up to the number of
    configured workers that have a status hash, so to at most
    [total_workers]; after a cycle over the configured workers they add up
    to [total_workers]. *)
Theorem metrics_counters_cover_checked (st : State) :
  (m_healthy (get_metrics st) + m_degraded (get_metrics st) + m_down (get_metrics st)
   = length (checked st WORKERS))%nat /\
  (length (checked st WORKERS) <= total_workers (get_metrics st))%nat /\
  (forall probe,
     let m := get_metrics (perform_health_checks probe st) in
     (m_healthy m + m_degraded m + m_down m = total_workers m)%nat).
Proof.
  assert (Sum : forall s,
             (m_healthy (get_metrics s) + m_degraded (get_metrics s) + m_down (get_metrics s)
              = length (checked s WORKERS))%nat).
  { intros s. unfold get_metrics, get_metrics_of.
    cbn [m_healthy m_degraded m_down].
    destruct (tally_counts s WORKERS tally0) as (H1 & H2 & H3).
    rewrite H1, H2, H3, <- status_partition. cbn [tally0 t_healthy t_degraded t_down]. lia. }
  split; [apply Sum|]. split.
  - unfold checked. apply filter_length_le.
  - intros probe m. subst m. rewrite Sum.
    change (total_workers (get_metrics (perform_health_checks probe st)))
      with (length WORKERS).
    unfold checked. f_equal. apply forallb_filter_id. apply forallb_forall.
    intros w Hin. apply bool_decide_eq_true_2.
    rewrite (cycle_record probe st w Hin). eauto.
Qed.

(** X7.  After a cycle in which every probe raised, [GET /metrics] counts
    every configured worker as down, none as healthy or degraded, and
    reports the average response time 0.0: the response time 0 stored for
    an unreachable worker is left out of the average. *)
Theorem metrics_after_blackout (probe : Worker -> Probe) (st : State) :
  (forall w, In w WORKERS -> exists e, outcome (probe w) = Raised e) ->
  let m := get_metrics (perform_health_checks probe st) in
  m_down m = total_workers m /\
  m_healthy m = 0%nat /\ m_degraded m = 0%nat /\
  avg_response_time_ms m = 0.0%float.
Proof.
  intros Hall m. subst m. set (st' := perform_health_checks probe st).
  assert (Rec : forall w, In w WORKERS ->
            exists r, statuses st' !! name w = Some r /\
                      status r = down /\ response_time_ms r = Dec false 0).
  { intros w Hin. destruct (Hall w Hin) as [e He].
    subst st'. rewrite (cycle_record probe st w Hin).
    eexists. split; [reflexivity|].
    unfold written_record. rewrite He. split; reflexivity. }
  assert (Gen : forall l t, (forall w, In w l -> In w WORKERS) ->
            let t' := fold_left (tally_worker st') l t in
            t_down t' = (t_down t + length l)%nat /\
            t_healthy t' = t_healthy t /\ t_degraded t' = t_degraded t /\
            response_count t' = response_count t).
  { induction l as [|w ws IH]; intros t Hsub; cbn zeta.
    - cbn. repeat split; lia.
    - cbn [fold_left].
      destruct (IH (tally_worker st' t w) (fun x Hx => Hsub x (or_intror Hx)))
        as (H1 & H2 & H3 & H4).
      rewrite H1, H2, H3, H4.
      destruct (Rec w (Hsub w (or_introl eq_refl))) as (r & Hr & Hs & Hrt).
      unfold tally_worker. rewrite Hr, Hs, Hrt. cbn. repeat split; lia. }
  destruct (Gen WORKERS tally0 (fun _ H => H)) as (H1 & H2 & H3 & H4).
  unfold get_metrics, get_metrics_of.
  cbn [m_down m_healthy m_degraded total_workers avg_response_time_ms].
  rewrite H1, H2, H3, H4. cbn [tally0 t_down t_healthy t_degraded response_count].
  repeat split; reflexivity.
Qed.

Lemma metrics_after_blackout_witness :
  let m := get_metrics (perform_health_checks (fun _ => timed_out) initial) in
  m_down m = 6%nat /\ avg_response_time_ms m = 0.0%float.
Proof.
  destruct (metrics_after_blackout (fun _ => timed_out) initial) as (H1 & _ & _ & H4).
  - intros w _. exists "timed out". reflexivity.
  - split; [exact H1 | exact H4].
Defined.

(** ** Stored uptimes read back *)

Definition uptime_text_round_trips (k : Z) : bool :=
  match format_2f (parse_float (Dec false k)) with
  | Dec false k' => k' =? k
  | _ => false
  end.

Lemma uptime_text_table :
  forallb uptime_text_round_trips (map Z.of_nat (seq 0 (Z.to_nat 10001))) = true.
Proof. vm_compute. reflexivity. Qed.

(** X8.  An uptime between 0.00 and 100.00 written as two-decimal text and
    read back as a float is written again as the same text: reading the
    store loses nothing, and two different stored uptimes are read as
    different floats. *)
Theorem stored_uptime_round_trip (k : Z) :
  0 <= k <= 10000 ->
  format_2f (parse_float (Dec false k)) = Dec false k /\
  (forall k', 0 <= k' <= 10000 ->
     parse_float (Dec false k') = parse_float (Dec false k) -> k' = k).
Proof.
  assert (RT : forall j, 0 <= j <= 10000 ->
                 format_2f (parse_float (Dec false j)) = Dec false j).
  { intros j Hj. pose proof uptime_text_table as T.
    rewrite forallb_forall in T.
    assert (Hin : In j (map Z.of_nat (seq 0 (Z.to_nat 10001)))).
    { apply in_map_iff. exists (Z.to_nat j). split; [apply Z2Nat.id; lia|].
      apply in_seq. lia. }
    specialize (T j Hin). unfold uptime_text_round_trips in T.
    destruct (format_2f (parse_float (Dec false j))) as [[|] j'| |]; try discriminate.
    apply Z.eqb_eq in T. subst. reflexivity. }
  intros Hk. split; [apply RT, Hk|].
  intros k' Hk' E. apply (f_equal format_2f) in E.
  rewrite (RT k Hk), (RT k' Hk') in E. congruence.
Qed.

Lemma stored_uptime_round_trip_witness :
  0 <= 9525 <= 10000 /\
  format_2f (parse_float (Dec false 9525)) = Dec false 9525.
Proof.
  split; [lia|].
  exact (proj1 (stored_uptime_round_trip 9525 ltac:(lia))).
Defined.

End HealthMonitorExtra.

(** * Further properties of the guardian agent *)

Module GuardianExtra.
Import RedisList RedisRange PyFloat Guardian GuardianQueries.
Import RedisListSpec GuardianSpec.

(** ** What a check of an agent changes *)

(** The violation a policy check logs. *)
Definition logged (agent_name policy severity details action : string) (t : Z)
  : PolicyViolation :=
  {| agent := agent_name; policy := policy; severity := severity;
     timestamp := t; details := details; action_taken := action |}.

(** The effect of a step on the violations and the alerts: at most one
    violation, logged now for the agent [n], and at most one alert. *)
Record small_step (n : string) (t : Z) (st st' : State) : Prop := {
  ss_others : forall k, k <> n -> violations_of st' k = violations_of st k;
  ss_own : violations_of st' n = violations_of st n \/
           exists v, agent v = n /\ timestamp v = t /\
                     violations_of st' n = v :: take 99 (violations_of st n);
  ss_alerts : exists extra, alerts st' = alerts st ++ extra /\ (length extra <= 1)%nat
}.

Lemma small_step_refl n t st : small_step n t st st.
Proof.
  constructor; auto. exists []. rewrite app_nil_r. split; [reflexivity | cbn; lia].
Qed.

Lemma small_step_log n pol sev d act t st :
  small_step n t st (log_violation n pol sev d act t st).
Proof.
  constructor.
  - intros k Hk. apply log_violation_lists_other. congruence.
  - right. eexists. split; [|split; [|apply log_violation_lists]]; reflexivity.
  - exists []. rewrite app_nil_r. split; [reflexivity | cbn; lia].
Qed.

Lemma small_step_log_flag n pol sev d act reason t st :
  small_step n t st
    (flag_suspicious_behavior n reason t (log_violation n pol sev d act t st)).
Proof.
  constructor.
  - intros k Hk.
    change (violations_of (flag_suspicious_behavior n reason t ?s) k)
      with (violations_of s k).
    apply log_violation_lists_other. congruence.
  - right. eexists. split; [|split; [|
      change (violations_of (flag_suspicious_behavior n reason t ?s) n)
        with (violations_of s n); apply log_violation_lists]]; reflexivity.
  - eexists. split; [reflexivity | cbn; lia].
Qed.

Lemma small_step_flag n reason t st :
  small_step n t st (flag_suspicious_behavior n reason t st).
Proof.
  constructor; auto. eexists. split; [reflexivity | cbn; lia].
Qed.

Lemma small_step_hset n r t st st' :
  small_step n t st st' -> small_step n t st (hset n r st').
Proof. intros [H1 H2 H3]. constructor; assumption. Qed.

Lemma deployment_check_small n obs st :
  small_step n (now obs) st (check_deployment_policies n obs st).
Proof.
  unfold check_deployment_policies.
  destruct (deployments obs) as [e|code [ds|]]; try apply small_step_refl.
  - destruct (code =? 200); [|apply small_step_refl].
    destruct (recent_deployments (now obs) ds) as [recent|]; [|apply small_step_refl].
    destruct (max_deployments_per_hour <? length recent)%nat;
      [apply small_step_log_flag | apply small_step_refl].
  - destruct (code =? 200); apply small_step_refl.
Qed.

Lemma cost_check_small n obs st :
  small_step n (now obs) st (check_cost_policies n obs st).
Proof.
  unfold check_cost_policies.
  destruct (costs obs) as [e|code [c|]]; try apply small_step_refl;
    destruct (code =? 200); try apply small_step_refl.
  destruct (PrimFloat.ltb max_cost_per_day c);
    [apply small_step_log | apply small_step_refl].
Qed.

Lemma monitoring_check_small n obs st :
  small_step n (now obs) st (check_monitoring_policies n obs st).
Proof.
  unfold check_monitoring_policies.
  destruct (metrics obs) as [e|code [c|]]; try apply small_step_refl;
    destruct (code =? 200); try apply small_step_refl.
  destruct (max_failed_health_checks <? c);
    [apply small_step_log | apply small_step_refl].
Qed.

(** X9.  A check of an agent logs at most one violation, for that agent and
    with the time of the check, and sends at most one alert; it changes
    neither the record nor the violations of any other agent. *)
Theorem check_touches_one_agent (a : Agent) (obs : Observation) (st : State) :
  let st' := check_agent_behavior a obs st in
  (forall n, n <> name a ->
     agents st' !! n = agents st !! n /\ violations_of st' n = violations_of st n) /\
  (violations_of st' (name a) = violations_of st (name a) \/
   exists v, agent v = name a /\ timestamp v = now obs /\
             violations_of st' (name a) = v :: take 99 (violations_of st (name a))) /\
  (exists extra, alerts st' = alerts st ++ extra /\ (length extra <= 1)%nat).
Proof.
  intros st'.
  assert (S : small_step (name a) (now obs) st st').
  { subst st'. unfold check_agent_behavior.
    destruct (health obs) as [e|code body]; [apply small_step_flag|].
    destruct (code =? 200); cbn [negb]; [|apply small_step_flag].
    apply small_step_hset.
    destruct (String.eqb (type a) "orchestration"); [apply deployment_check_small|].
    destruct (String.eqb (type a) "analytics"); [apply cost_check_small|].
    destruct (String.eqb (type a) "monitoring"); [apply monitoring_check_small|].
    apply small_step_refl. }
  destruct S as [H1 H2 H3]. split; [|split; assumption].
  intros n Hn. split; [|apply H1, Hn].
  subst st'. rewrite check_agents. apply lookup_insert_ne. congruence.
Qed.

(** ** Liveness first *)

(** X10.  When the liveness probe of an agent raises or answers another
    code than 200, the policy endpoints are not consulted: whatever they
    would report, no violation is logged, one alert is sent and the agent
    is stored as suspicious with the threat level high. *)
Theorem liveness_failure_skips_policies (a : Agent) (obs : Observation) (st : State) :
  health_ok obs = false ->
  let st' := check_agent_behavior a obs st in
  violations st' = violations st /\
  agents st' !! name a = Some (suspicious_record (now obs)) /\
  exists reason, alerts st' = alerts st ++ [SuspiciousAlert (name a) reason].
Proof.
  unfold health_ok, check_agent_behavior. intros H.
  destruct (health obs) as [e|code body].
  - cbn zeta. split; [reflexivity|]. split; [apply lookup_insert_eq|].
    eexists. reflexivity.
  - rewrite H. cbn [negb]. cbn zeta. split; [reflexivity|].
    split; [apply lookup_insert_eq|]. eexists. reflexivity.
Qed.

Lemma liveness_failure_skips_policies_witness :
  let obs := {| now := 3600000000000;
                health := Response 503 None;
                deployments := Response 200 (Some (eleven_deployments 3600000000000));
                costs := Response 200 (Some 0.0%float);
                metrics := Response 200 (Some 0) |} in
  let st' := check_agent_behavior deployment_coordinator obs initial in
  health_ok obs = false /\
  violations st' = violations initial /\
  status_of st' "deployment-coordinator" = Some suspicious.
Proof.
  intros obs st'.
  destruct (liveness_failure_skips_policies deployment_coordinator obs initial eq_refl)
    as (Hv & Ha & _).
  split; [reflexivity|]. split; [exact Hv|].
  unfold status_of. subst st'.
  change "deployment-coordinator" with (name deployment_coordinator).
  rewrite Ha. reflexivity.
Defined.

(** ** Policy endpoints that cannot be read *)

(** A fetch that gives the policy check nothing to look at: the request
    raised, the code is not 200, or the body cannot be read. *)
Definition unusable {A} (f : Fetch A) : Prop :=
  match f with
  | Failed _ => True
  | Response status_code body => status_code <> 200 \/ body = None
  end.

(** X11.  When the agent is alive but its policy endpoints raise, answer
    another code than 200 or send a body that cannot be read, the check
    logs nothing and alerts nobody, and the agent is stored as healthy. *)
Theorem unreadable_policy_is_silent (a : Agent) (obs : Observation) (st : State) :
  health_ok obs = true ->
  unusable (deployments obs) -> unusable (costs obs) -> unusable (metrics obs) ->
  let st' := check_agent_behavior a obs st in
  violations st' = violations st /\
  alerts st' = alerts st /\
  agents st' !! name a = Some (healthy_record (now obs)).
Proof.
  intros Hh Hd Hc Hm st'.
  assert (D : check_deployment_policies (name a) obs st = st).
  { unfold check_deployment_policies. destruct (deployments obs) as [e|code body]; [reflexivity|].
    destruct (Z.eqb_spec code 200) as [->|]; [|reflexivity].
    destruct Hd as [Hd| ->]; [congruence | reflexivity]. }
  assert (C : check_cost_policies (name a) obs st = st).
  { unfold check_cost_policies. destruct (costs obs) as [e|code body]; [reflexivity|].
    destruct (Z.eqb_spec code 200) as [->|]; [|reflexivity].
    destruct Hc as [Hc| ->]; [congruence | reflexivity]. }
  assert (M : check_monitoring_policies (name a) obs st = st).
  { unfold check_monitoring_policies. destruct (metrics obs) as [e|code body]; [reflexivity|].
    destruct (Z.eqb_spec code 200) as [->|]; [|reflexivity].
    destruct Hm as [Hm| ->]; [congruence | reflexivity]. }
  subst st'. unfold check_agent_behavior, health_ok in *.
  destruct (health obs) as [e|code body]; [discriminate|].
  rewrite Hh. cbn [negb]. rewrite D, C, M.
  destruct (String.eqb (type a) "orchestration");
    [|destruct (String.eqb (type a) "analytics");
      [|destruct (String.eqb (type a) "monitoring")]];
    (split; [reflexivity|]; split; [reflexivity|]; apply lookup_insert_eq).
Qed.

Lemma unreadable_policy_is_silent_witness :
  let obs := {| now := 5;
                health := Response 200 None;
                deployments := Response 500 None;
                costs := Failed "timed out";
                metrics := Response 200 None |} in
  let st' := check_agent_behavior cost_optimizer obs initial in
  health_ok obs = true /\
  violations st' = violations initial /\ alerts st' = alerts initial /\
  status_of st' "cost-optimizer" = Some healthy.
Proof.
  intros obs st'.
  destruct (unreadable_policy_is_silent cost_optimizer obs initial eq_refl)
    as (Hv & Hal & Ha).
  - left. discriminate.
  - exact I.
  - right. reflexivity.
  - split; [reflexivity|]. split; [exact Hv|]. split; [exact Hal|].
    unfold status_of. subst st'.
    change "cost-optimizer" with (name cost_optimizer).
    rewrite Ha. reflexivity.
Defined.

(** ** The cost and monitoring policies *)

(** X12.  For an analytics agent that is alive and reports a daily cost,
    the check logs one violation [max_cost_per_day] with severity
    [warning] when the cost is above 10.0, and nothing otherwise; in both
    cases it sends no alert and stores the agent as healthy. *)
Theorem cost_over_limit_warns_only
    (a : Agent) (obs : Observation) (st : State) (body : option unit) (total_cost : float) :
  type a = "analytics" ->
  health obs = Response 200 body ->
  costs obs = Response 200 (Some total_cost) ->
  let st' := check_agent_behavior a obs st in
  violations_of st' (name a)
  = (if PrimFloat.ltb 10.0%float total_cost
     then logged (name a) "max_cost_per_day" "warning"
            ("Daily cost $" +:+ decimal2_text (format_2f total_cost) +:+
             " exceeds limit $10.0") "Alert sent" (now obs)
          :: take 99 (violations_of st (name a))
     else violations_of st (name a)) /\
  alerts st' = alerts st /\
  agents st' !! name a = Some (healthy_record (now obs)).
Proof.
  intros Htype Hhealth Hcosts st'. subst st'. unfold check_agent_behavior.
  rewrite Hhealth. change (negb (200 =? 200)) with false. cbn iota.
  rewrite Htype. change (String.eqb "analytics" "orchestration") with false.
  change (String.eqb "analytics" "analytics") with true. cbn iota.
  unfold check_cost_policies. rewrite Hcosts.
  change (200 =? 200) with true. cbn iota.
  change max_cost_per_day with 10.0%float.
  destruct (PrimFloat.ltb 10.0%float total_cost).
  - split; [|split; [reflexivity | apply lookup_insert_eq]].
    change (violations_of (hset ?n ?r ?s) ?k) with (violations_of s k).
    apply log_violation_lists.
  - split; [reflexivity|]. split; [reflexivity | apply lookup_insert_eq].
Qed.

Lemma cost_over_limit_warns_only_witness :
  let obs := {| now := 7;
                health := Response 200 None;
                deployments := Failed "";
                costs := Response 200 (Some 12.5%float);
                metrics := Failed "" |} in
  let st' := check_agent_behavior cost_optimizer obs initial in
  map policy (violations_of st' "cost-optimizer") = ["max_cost_per_day"] /\
  map details (violations_of st' "cost-optimizer")
  = ["Daily cost $12.50 exceeds limit $10.0"] /\
  status_of st' "cost-optimizer" = Some healthy.
Proof.
  intros obs st'.
  destruct (cost_over_limit_warns_only cost_optimizer obs initial None 12.5%float
              eq_refl eq_refl eq_refl) as (Hv & _ & Ha).
  change (name cost_optimizer) with "cost-optimizer" in Hv, Ha.
  subst st'. unfold status_of. rewrite Hv, Ha.
  vm_compute. repeat split.
Defined.

(** X13.  For a monitoring agent that is alive and reports a number of
    workers down, the check logs one violation [max_failed_health_checks]
    with severity [critical] when the number is above 5, and nothing
    otherwise; in both cases it sends no alert and stores the agent as
    healthy. *)
Theorem down_count_over_limit_logs_only
    (a : Agent) (obs : Observation) (st : State) (body : option unit) (down_count : Z) :
  type a = "monitoring" ->
  health obs = Response 200 body ->
  metrics obs = Response 200 (Some down_count) ->
  let st' := check_agent_behavior a obs st in
  violations_of st' (name a)
  = (if 5 <? down_count
     then logged (name a) "max_failed_health_checks" "critical"
            (pretty down_count +:+ " workers are down (limit: 5)") "Alert sent" (now obs)
          :: take 99 (violations_of st (name a))
     else violations_of st (name a)) /\
  alerts st' = alerts st /\
  agents st' !! name a = Some (healthy_record (now obs)).
Proof.
  intros Htype Hhealth Hmetrics st'. subst st'. unfold check_agent_behavior.
  rewrite Hhealth. change (negb (200 =? 200)) with false. cbn iota.
  rewrite Htype. change (String.eqb "monitoring" "orchestration") with false.
  change (String.eqb "monitoring" "analytics") with false.
  change (String.eqb "monitoring" "monitoring") with true. cbn iota.
  unfold check_monitoring_policies. rewrite Hmetrics.
  change (200 =? 200) with true. cbn iota.
  change max_failed_health_checks with 5.
  destruct (5 <? down_count).
  - split; [|split; [reflexivity | apply lookup_insert_eq]].
    change (violations_of (hset ?n ?r ?s) ?k) with (violations_of s k).
    apply log_violation_lists.
  - split; [reflexivity|]. split; [reflexivity | apply lookup_insert_eq].
Qed.

Definition worker_health_monitor : Agent :=
  {| name := "worker-health-monitor"; url := "http://worker-health-monitor:6003";
     type := "monitoring" |}.

Lemma down_count_over_limit_logs_only_witness :
  let obs := {| now := 7;
                health := Response 200 None;
                deployments := Failed "";
                costs := Failed "";
                metrics := Response 200 (Some 6) |} in
  let st' := check_agent_behavior worker_health_monitor obs initial in
  map details (violations_of st' "worker-health-monitor")
  = ["6 workers are down (limit: 5)"] /\
  status_of st' "worker-health-monitor" = Some healthy.
Proof.
  intros obs st'.
  destruct (down_count_over_limit_logs_only worker_health_monitor obs initial None 6
              eq_refl eq_refl eq_refl) as (Hv & _ & Ha).
  change (name worker_health_monitor) with "worker-health-monitor" in Hv, Ha.
  subst st'. unfold status_of. rewrite Hv, Ha.
  vm_compute. repeat split.
Defined.

(** ** The deployments that count *)

(** A deployment counts as recent when it started later than one hour
    before [now]; one without ["started_at"] counts as started on
    2020-01-01. *)
Definition counts_as_recent (now : Z) (d : StartedAt) : bool :=
  match started_instant d with
  | Some t => now - hour <? t
  | None => false
  end.

Lemma recent_deployments_filter now ds :
  ~ In Malformed ds ->
  recent_deployments now ds = Some (List.filter (counts_as_recent now) ds).
Proof.
  induction ds as [|d ds IH]; intros Hm; [reflexivity|].
  cbn [recent_deployments List.filter]. unfold counts_as_recent at 1.
  destruct d; cbn [started_instant].
  - rewrite IH by (intros H; apply Hm; right; exact H). reflexivity.
  - exfalso. apply Hm. left. reflexivity.
  - rewrite IH by (intros H; apply Hm; right; exact H). reflexivity.
Qed.

Lemma recent_deployments_malformed now ds :
  In Malformed ds -> recent_deployments now ds = None.
Proof.
  induction ds as [|d ds IH]; intros Hm; [destruct Hm|].
  cbn [recent_deployments]. destruct Hm as [->|Hm]; [reflexivity|].
  destruct (started_instant d); [|reflexivity].
  rewrite (IH Hm). reflexivity.
Qed.

(** X14.  One deployment whose ["started_at"] cannot be read makes the
    rate check give up: however many recent deployments the agent lists,
    the check of an orchestration agent that is alive logs nothing, alerts
    nobody and stores the agent as healthy. *)
Theorem malformed_deployment_hides_burst
    (a : Agent) (obs : Observation) (st : State) (body : option unit)
    (ds : list StartedAt) :
  type a = "orchestration" ->
  health obs = Response 200 body ->
  deployments obs = Response 200 (Some ds) ->
  In Malformed ds ->
  let st' := check_agent_behavior a obs st in
  violations st' = violations st /\
  alerts st' = alerts st /\
  agents st' !! name a = Some (healthy_record (now obs)).
Proof.
  intros Htype Hhealth Hdep Hm st'. subst st'. unfold check_agent_behavior.
  rewrite Hhealth. change (negb (200 =? 200)) with false. cbn iota.
  rewrite Htype. change (String.eqb "orchestration" "orchestration") with true.
  cbn iota. unfold check_deployment_policies. rewrite Hdep.
  change (200 =? 200) with true. cbn iota.
  rewrite (recent_deployments_malformed _ _ Hm).
  split; [reflexivity|]. split; [reflexivity | apply lookup_insert_eq].
Qed.

Lemma malformed_deployment_hides_burst_witness :
  let ds := eleven_deployments 3600000000000 ++ [Malformed] in
  let obs := {| now := 3600000000000;
                health := Response 200 None;
                deployments := Response 200 (Some ds);
                costs := Failed "";
                metrics := Failed "" |} in
  let st' := check_agent_behavior deployment_coordinator obs initial in
  In Malformed ds /\
  violations st' = violations initial /\
  status_of st' "deployment-coordinator" = Some healthy.
Proof.
  intros ds obs st'.
  assert (Hm : In Malformed ds) by (apply in_or_app; right; left; reflexivity).
  destruct (malformed_deployment_hides_burst deployment_coordinator obs initial None ds
              eq_refl eq_refl eq_refl Hm) as (Hv & _ & Ha).
  split; [exact Hm|]. split; [exact Hv|].
  change (name deployment_coordinator) with "deployment-coordinator" in Ha.
  subst st'. unfold status_of. rewrite Ha. reflexivity.
Defined.

(** X15.  The rate check counts the deployments started later than one
    hour before the check, those without ["started_at"] as started on
    2020-01-01.  With at most ten of them it changes nothing: the limit of
    ten is not a violation, and a deployment started exactly one hour ago
    does not count. *)
Theorem ten_recent_deployments_allowed
    (agent_name : string) (obs : Observation) (st : State) (ds : list StartedAt) :
  deployments obs = Response 200 (Some ds) ->
  ~ In Malformed ds ->
  (length (List.filter (counts_as_recent (now obs)) ds) <= 10)%nat ->
  check_deployment_policies agent_name obs st = st /\
  counts_as_recent (now obs) (Iso (now obs - hour)) = false.
Proof.
  intros Hdep Hm Hlen. split.
  - unfold check_deployment_policies. rewrite Hdep.
    change (200 =? 200) with true. cbn iota.
    rewrite (recent_deployments_filter _ _ Hm).
    destruct (Nat.ltb_spec max_deployments_per_hour
                (length (List.filter (counts_as_recent (now obs)) ds))) as [H|_];
      [|reflexivity].
    unfold max_deployments_per_hour in H. lia.
  - unfold counts_as_recent. cbn [started_instant]. apply Z.ltb_irrefl.
Qed.

Lemma ten_recent_deployments_allowed_witness :
  let t := 1700000000000000 in
  let ds := Iso (t - hour) :: Missing :: map (fun i => Iso (t - Z.of_nat i)) (seq 1 10) in
  let obs := {| now := t;
                health := Response 200 None;
                deployments := Response 200 (Some ds);
                costs := Failed "";
                metrics := Failed "" |} in
  length ds = 12%nat /\
  length (List.filter (counts_as_recent t) ds) = 10%nat /\
  check_deployment_policies "deployment-coordinator" obs initial = initial.
Proof.
  intros t ds obs.
  assert (Hm : ~ In Malformed ds).
  { cbn. intuition discriminate. }
  assert (Hlen : length (List.filter (counts_as_recent (now obs)) ds) = 10%nat)
    by (vm_compute; reflexivity).
  split; [reflexivity|]. split; [exact Hlen|].
  apply (ten_recent_deployments_allowed "deployment-coordinator" obs initial ds
           eq_refl Hm).
  rewrite Hlen. lia.
Defined.

(** ** [GET /violations] *)


Lemma insert_newest_perm v l : Permutation (insert_newest v l) (v :: l).
Proof.
  induction l as [|w l IH]; [reflexivity|].
  cbn [insert_newest]. destruct (timestamp v <? timestamp w); [|reflexivity].
  rewrite IH. apply perm_swap.
Qed.

Lemma sorted_newest_first_perm l : Permutation (sorted_newest_first l) l.
Proof.
  induction l as [|v l IH]; [reflexivity|].
  cbn [sorted_newest_first fold_right]. rewrite insert_newest_perm.
  apply perm_skip, IH.
Qed.




(** The violations stored for the registered agents, within the window. *)
Definition in_window (cutoff : Z) (st : State) : list PolicyViolation :=
  flat_map (fun a => List.filter (fun v => cutoff <=? timestamp v)
                                 (violations_of st (name a)))
           AGENTS.





(** ** [GET /metrics] *)

Lemma count_agents_bound st l c :
  let c' := fold_left (count_agent st) l c in
  (n_healthy c' + n_suspicious c' + n_stopped c'
   <= n_healthy c + n_suspicious c + n_stopped c + length l)%nat.
Proof.
  revert c. induction l as [|a l IH]; intros c; cbn zeta; [cbn; lia|].
  cbn [fold_left length]. specialize (IH (count_agent st c a)). cbn zeta in IH.
  etransitivity; [exact IH|].
  unfold count_agent. destruct (status_of st (name a)) as [[| | |]|]; cbn; lia.
Qed.

(** X18.  In [GET /metrics] the three status counters add up to at most
    the number of agents, and the critical alerts of the last 24 hours are
    at most the violations of the last 24 hours. *)
Theorem guardian_metrics_bounds (now : Z) (st : State) :
  let m := get_metrics now st in
  (g_healthy m + g_suspicious m + g_stopped m <= total_agents m)%nat /\
  (critical_alerts_24h m <= total_violations_24h m)%nat /\
  total_violations_24h m = length (in_window (now - 24 * hour) st).
Proof.
  cbn zeta. unfold get_metrics.
  cbn [g_healthy g_suspicious g_stopped total_agents critical_alerts_24h
       total_violations_24h].
  split; [|split].
  - pose proof (count_agents_bound st AGENTS
                  {| n_healthy := 0; n_suspicious := 0; n_stopped := 0 |}) as H.
    cbn zeta in H. cbn [n_healthy n_suspicious n_stopped] in H. lia.
  - apply filter_length_le.
  - apply Permutation_length. unfold list_violations. cbn zeta.
    apply sorted_newest_first_perm.
Qed.

Lemma count_checked_agents (observe : Agent -> Observation) st l c :
  (forall a, In a l ->
     status_of st (name a) = Some (if health_ok (observe a) then healthy else suspicious)) ->
  let c' := fold_left (count_agent st) l c in
  n_healthy c'
  = (n_healthy c + length (List.filter (fun a => health_ok (observe a)) l))%nat /\
  n_suspicious c'
  = (n_suspicious c + length (List.filter (fun a => negb (health_ok (observe a))) l))%nat /\
  n_stopped c' = n_stopped c.
Proof.
  revert c. induction l as [|a l IH]; intros c Hst; cbn zeta.
  - cbn. repeat split; lia.
  - cbn [fold_left List.filter].
    destruct (IH (count_agent st c a) (fun x Hx => Hst x (or_intror Hx)))
      as (H1 & H2 & H3).
    rewrite H1, H2, H3. unfold count_agent.
    rewrite (Hst a (or_introl eq_refl)).
    destruct (health_ok (observe a)); cbn; repeat split; lia.
Qed.

Lemma filter_split_length {A} (f : A -> bool) (l : list A) :
  (length (List.filter f l) + length (List.filter (fun x => negb (f x)) l))%nat
  = length l.
Proof.
  induction l as [|x l IH]; [reflexivity|].
  cbn [List.filter]. destruct (f x); cbn; lia.
Qed.

(** X19.  After [POST /monitor/all], which replies with the number of
    agents, [GET /metrics] counts no agent as stopped: every agent is
    counted as healthy or as suspicious, the suspicious ones being those
    whose liveness probe failed during the pass. *)
Theorem metrics_after_monitoring_pass
    (observe : Agent -> Observation) (now : Z) (st : State) :
  let reply := monitor_all_agents observe st in
  let m := get_metrics now (snd reply) in
  fst reply = total_agents m /\
  g_stopped m = 0%nat /\
  (g_healthy m + g_suspicious m)%nat = total_agents m /\
  g_suspicious m
  = length (List.filter (fun a => negb (health_ok (observe a))) AGENTS).
Proof.
  cbn zeta. unfold monitor_all_agents. cbn [fst snd].
  set (st' := perform_agent_monitoring observe st).
  destruct (count_checked_agents observe st' AGENTS
              {| n_healthy := 0; n_suspicious := 0; n_stopped := 0 |})
    as (H1 & H2 & H3).
  { intros a Ha. subst st'. unfold perform_agent_monitoring.
    apply pass_status; [exact agent_names_distinct | exact Ha]. }
  unfold get_metrics.
  cbn [total_agents g_stopped g_healthy g_suspicious].
  rewrite H1, H2, H3. cbn [n_healthy n_suspicious n_stopped].
  split; [reflexivity|]. split; [reflexivity|]. split; [|reflexivity].
  rewrite !Nat.add_0_l. apply filter_split_length.
Qed.

(** ** A stop seen through [GET /agents] *)

(** X20.  After an accepted stop of a registered agent, [GET /agents]
    shows the agent as stopped, with the threat level critical, the time of
    the stop as last check and [emergency_stop] as the first of at most 10
    violations. *)
Theorem stop_shows_in_listing (a : Agent) (t : Z) (st : State) :
  In a AGENTS ->
  let st' := snd (emergency_stop_agent true (name a) t st) in
  exists entry,
    In entry (list_agents st') /\
    as_name entry = name a /\
    as_status entry = "stopped" /\
    as_threat_level entry = "critical" /\
    as_last_check entry = Some t /\
    head (as_violations entry) = Some "emergency_stop" /\
    (length (as_violations entry) <= 10)%nat.
Proof.
  intros Ha st'.
  assert (Hr : registered (name a)) by (exists a; auto).
  assert (Hagents : agents st' !! name a = Some (stopped_record t)).
  { subst st'. rewrite (stop_accepted (name a) t st Hr). cbn [snd].
    unfold send_alert, log_violation, hset. cbn [agents]. apply lookup_insert_eq. }
  assert (Hviol : violations_of st' (name a)
                  = logged (name a) "emergency_stop" "critical"
                      "Agent manually stopped by Guardian" "Agent process terminated" t
                    :: take 99 (violations_of (hset (name a) (stopped_record t) st) (name a))).
  { subst st'. rewrite (stop_accepted (name a) t st Hr). cbn [snd].
    change (violations_of (send_alert ?x ?s) ?n) with (violations_of s n).
    apply log_violation_lists. }
  eexists. split.
  - unfold list_agents. apply in_map. exact Ha.
  - cbn beta zeta. rewrite Hagents, Hviol.
    cbn [as_name as_status as_threat_level as_last_check as_violations
         status threat_level last_check stopped_record status_text threat_text].
    repeat split.
    unfold lrange. rewrite length_map, length_take. lia.
Qed.

Lemma stop_shows_in_listing_witness :
  In cost_optimizer AGENTS /\
  exists entry,
    In entry (list_agents (snd (emergency_stop_agent true "cost-optimizer" 9 initial))) /\
    as_name entry = "cost-optimizer" /\
    as_status entry = "stopped" /\
    as_threat_level entry = "critical" /\
    as_last_check entry = Some 9 /\
    head (as_violations entry) = Some "emergency_stop" /\
    (length (as_violations entry) <= 10)%nat.
Proof.
  assert (Ha : In cost_optimizer AGENTS) by (right; left; reflexivity).
  split; [exact Ha|].
  exact (stop_shows_in_listing cost_optimizer 9 initial Ha).
Defined.

End GuardianExtra.
